(** * HRMS Lite: the request handlers of backend/app/main.py

    A shallow embedding of the FastAPI handlers over an explicit model of
    the two tables they read and write, and the properties of the
    specification stated and settled against it.

    Conventions of the embedding:
    - a table is the list of its rows, in insertion order;
    - [date] and [datetime] values are integers that order as the Python
      values do (a date by its proleptic ordinal, a timestamp by its
      distance from the epoch);
    - a handler is a function from the database state to the new state and
      the response; an [HTTPException] raised by the handler and an
      exception raised by the storage layer are two different responses;
    - a route is its handler between the validation of the request and the
      validation of the returned value against the route's response model;
    - the storage layer is taken to behave as PostgreSQL does where the
      source leaves the engine open ([LIKE] escapes, the range of [OFFSET]
      and [LIMIT], sequences that a rolled-back insert has advanced). *)

From Stdlib Require Import ZArith List String Ascii Bool Lia.
From Stdlib Require Import Permutation Sorted.
Import ListNotations.

Local Open Scope string_scope.
Local Open Scope Z_scope.

(* ------------------------------------------------------------------ *)
(** * SQLAlchemy models *)
(* ------------------------------------------------------------------ *)

Definition date := Z.
Definition datetime := Z.

(** [Enum("Present", "Absent", name="attendance_status")] *)
Inductive AttendanceStatus : Type := Present | Absent.

Definition AttendanceStatus_eqb (a b : AttendanceStatus) : bool :=
  match a, b with
  | Present, Present | Absent, Absent => true
  | _, _ => false
  end.

(** A row of table [employees]. *)
Module Employee.
Record t : Type := mk {
  id : Z;
  employee_id : string;
  full_name : string;
  email : string;
  department : option string;
  created_at : datetime
}.
End Employee.

(** A row of table [attendance]. *)
Module Attendance.
Record t : Type := mk {
  id : Z;
  employee_id : Z;
  date : date;
  status : AttendanceStatus
}.
End Attendance.

(* ------------------------------------------------------------------ *)
(** * Pydantic schemas *)
(* ------------------------------------------------------------------ *)

Module EmployeeCreate.
Record t : Type := mk {
  employee_id : string;
  full_name : string;
  email : string;
  department : option string
}.
End EmployeeCreate.

(** Every field is [Optional] with default [None]: a field left out of the
    body and a field sent as [null] both arrive as [None]. *)
Module EmployeeUpdate.
Record t : Type := mk {
  full_name : option string;
  email : option string;
  department : option string
}.
End EmployeeUpdate.

Module AttendanceCreate.
Record t : Type := mk {
  employee_id : Z;
  date : date;
  status : AttendanceStatus
}.
End AttendanceCreate.

Module AttendanceUpdate.
Record t : Type := mk { status : AttendanceStatus }.
End AttendanceUpdate.

(** [Field(min_length=.., max_length=..)] on a [str]. *)
Definition min_length (n : nat) (s : string) : bool := (n <=? String.length s)%nat.
Definition max_length (n : nat) (s : string) : bool := (String.length s <=? n)%nat.

Definition optional {A : Type} (check : A -> bool) (v : option A) : bool :=
  match v with
  | None => true
  | Some x => check x
  end.

Section Validation.
(** The syntax check behind [EmailStr] belongs to the email-validator
    package; the schemas are stated over any such check. *)
Variable EmailStr : string -> bool.

(** [EmployeeBase], inherited unchanged by [EmployeeCreate]. *)
Definition EmployeeCreate_validate (e : EmployeeCreate.t) : bool :=
  min_length 1 (EmployeeCreate.employee_id e)
  && max_length 50 (EmployeeCreate.employee_id e)
  && min_length 1 (EmployeeCreate.full_name e)
  && max_length 255 (EmployeeCreate.full_name e)
  && EmailStr (EmployeeCreate.email e)
  && optional (max_length 100) (EmployeeCreate.department e).

Definition EmployeeUpdate_validate (e : EmployeeUpdate.t) : bool :=
  optional (max_length 255) (EmployeeUpdate.full_name e)
  && optional EmailStr (EmployeeUpdate.email e)
  && optional (max_length 100) (EmployeeUpdate.department e).

(** [EmployeeRead]: the fields of [EmployeeBase] with their constraints,
    read from the row ([from_attributes]); [id] and [created_at] are an
    [int] and a [datetime] in every row. *)
Definition EmployeeRead_validate (e : Employee.t) : bool :=
  min_length 1 (Employee.employee_id e)
  && max_length 50 (Employee.employee_id e)
  && min_length 1 (Employee.full_name e)
  && max_length 255 (Employee.full_name e)
  && EmailStr (Employee.email e)
  && optional (max_length 100) (Employee.department e).
End Validation.

(* ------------------------------------------------------------------ *)
(** * The database *)
(* ------------------------------------------------------------------ *)

(** The two tables and the sequences behind their integer primary keys. *)
Record Store : Type := mkStore {
  employees : list Employee.t;
  attendance : list Attendance.t;
  employees_id_seq : Z;
  attendance_id_seq : Z
}.

Definition empty_store : Store := mkStore [] [] 1 1.

(** What the storage layer raises: out of [db.commit()] when a constraint
    of the schema is violated or the row to update is gone, out of
    [db.refresh()] when the row is gone, out of a query it cannot run. *)
Inductive StorageError : Type :=
| IntegrityError (constraint : string)
| StaleDataError
| InvalidRequestError
| DataError (message : string).

(** The outcome of one request: the value a handler returns under the
    status code of its route, the [HTTPException] it raises, the refusal of
    the request body or query string (422), the refusal of the returned
    value by the route's [response_model] (500), the exception of the
    storage layer that leaves the handler uncaught (500). *)
Inductive Response (A : Type) : Type :=
| Success (status_code : Z) (body : A)
| HTTPException (status_code : Z) (detail : string)
| RequestValidationError
| ResponseValidationError
| Raised (exc : StorageError).

Arguments Success {A} status_code body.
Arguments HTTPException {A} status_code detail.
Arguments RequestValidationError {A}.
Arguments ResponseValidationError {A}.
Arguments Raised {A} exc.

(** [response_model=...] of a route: the value the handler returns is
    validated against the model before it is sent; a value that fails is
    answered with an internal error, after the handler has committed. *)
Definition response_model {A : Type} (validate : A -> bool) (r : Response A) : Response A :=
  match r with
  | Success status_code body =>
      if validate body then Success status_code body else ResponseValidationError
  | _ => r
  end.

Definition HTTP_201_CREATED : Z := 201.
Definition HTTP_204_NO_CONTENT : Z := 204.
Definition HTTP_400_BAD_REQUEST : Z := 400.
Definition HTTP_404_NOT_FOUND : Z := 404.
Definition HTTP_200_OK : Z := 200.

(** ** Queries *)

(** [query.first()]: the first row that passes the filter, or [None]. *)
Definition first {A : Type} (p : A -> bool) (rows : list A) : option A :=
  find p rows.

Definition employee_by_pk (pk : Z) (e : Employee.t) : bool :=
  Employee.id e =? pk.

Definition employee_by_employee_id (v : string) (e : Employee.t) : bool :=
  String.eqb (Employee.employee_id e) v.

Definition employee_by_email (v : string) (e : Employee.t) : bool :=
  String.eqb (Employee.email e) v.

Definition attendance_by_pk (pk : Z) (a : Attendance.t) : bool :=
  Attendance.id a =? pk.

Definition attendance_by_employee (pk : Z) (a : Attendance.t) : bool :=
  Attendance.employee_id a =? pk.

Definition attendance_by_date (d : date) (a : Attendance.t) : bool :=
  Attendance.date a =? d.

Definition attendance_by_status (st : AttendanceStatus) (a : Attendance.t) : bool :=
  AttendanceStatus_eqb (Attendance.status a) st.

(** [ORDER BY key DESC]: insertion into a descending list, an incoming row
    going before the rows of equal key. *)
Fixpoint insert_desc {A : Type} (key : A -> Z) (x : A) (rows : list A) : list A :=
  match rows with
  | [] => [x]
  | y :: rest =>
      if key y <=? key x then x :: y :: rest
      else y :: insert_desc key x rest
  end.

Fixpoint order_by_desc {A : Type} (key : A -> Z) (rows : list A) : list A :=
  match rows with
  | [] => []
  | x :: rest => insert_desc key x (order_by_desc key rest)
  end.

(** ** Writes, with the constraints the schema declares *)

(** [INSERT INTO employees]: [unique=True] on [employee_id] and on [email];
    [id] comes from the sequence and [created_at] from the server clock. *)
Definition insert_employee (now : datetime) (e : EmployeeCreate.t) (db : Store)
  : (Store * Employee.t) + StorageError :=
  if existsb (employee_by_employee_id (EmployeeCreate.employee_id e)) (employees db)
  then inr (IntegrityError "employees.employee_id")
  else if existsb (employee_by_email (EmployeeCreate.email e)) (employees db)
  then inr (IntegrityError "employees.email")
  else
    let row := Employee.mk (employees_id_seq db)
                 (EmployeeCreate.employee_id e) (EmployeeCreate.full_name e)
                 (EmployeeCreate.email e) (EmployeeCreate.department e) now in
    inl (mkStore (employees db ++ [row]) (attendance db)
           (employees_id_seq db + 1) (attendance_id_seq db), row).

(** [INSERT INTO attendance]: the foreign key on [employees.id] and
    [uq_employee_date]. *)
Definition insert_attendance (a : AttendanceCreate.t) (db : Store)
  : (Store * Attendance.t) + StorageError :=
  if negb (existsb (employee_by_pk (AttendanceCreate.employee_id a)) (employees db))
  then inr (IntegrityError "attendance.employee_id")
  else if existsb (fun r => attendance_by_employee (AttendanceCreate.employee_id a) r
                            && attendance_by_date (AttendanceCreate.date a) r)
            (attendance db)
  then inr (IntegrityError "uq_employee_date")
  else
    let row := Attendance.mk (attendance_id_seq db)
                 (AttendanceCreate.employee_id a) (AttendanceCreate.date a)
                 (AttendanceCreate.status a) in
    inl (mkStore (employees db) (attendance db ++ [row])
           (employees_id_seq db) (attendance_id_seq db + 1), row).

(** A rejected [INSERT] has drawn its [id] from the sequence all the same:
    the rollback gives the tables back, not the number. *)
Definition employee_id_drawn (db : Store) : Store :=
  mkStore (employees db) (attendance db) (employees_id_seq db + 1) (attendance_id_seq db).

Definition attendance_id_drawn (db : Store) : Store :=
  mkStore (employees db) (attendance db) (employees_id_seq db) (attendance_id_seq db + 1).

(** [UPDATE employees SET ... WHERE id = pk]. *)
Definition update_employee_row (pk : Z) (f : Employee.t -> Employee.t) (db : Store) : Store :=
  mkStore (map (fun e => if employee_by_pk pk e then f e else e) (employees db))
    (attendance db) (employees_id_seq db) (attendance_id_seq db).

(** [UPDATE attendance SET ... WHERE id = pk]. *)
Definition update_attendance_row (pk : Z) (f : Attendance.t -> Attendance.t) (db : Store) : Store :=
  mkStore (employees db)
    (map (fun a => if attendance_by_pk pk a then f a else a) (attendance db))
    (employees_id_seq db) (attendance_id_seq db).

(** [db.delete(employee)]: the relationship cascades ([all, delete-orphan],
    and [ON DELETE CASCADE] on the foreign key), so the rows of [attendance]
    that reference the employee go with it. *)
Definition delete_employee_row (pk : Z) (db : Store) : Store :=
  mkStore (filter (fun e => negb (employee_by_pk pk e)) (employees db))
    (filter (fun a => negb (attendance_by_employee pk a)) (attendance db))
    (employees_id_seq db) (attendance_id_seq db).

(** [db.delete(attendance)]. *)
Definition delete_attendance_row (pk : Z) (db : Store) : Store :=
  mkStore (employees db)
    (filter (fun a => negb (attendance_by_pk pk a)) (attendance db))
    (employees_id_seq db) (attendance_id_seq db).

(** ** Query helpers *)

(** [if v is not None: query = query.filter(p v)] *)
Definition filter_if {A B : Type} (v : option B) (p : B -> A -> bool) (rows : list A) : list A :=
  match v with
  | Some x => filter (p x) rows
  | None => rows
  end.

(** Lower case of the ASCII letters, as [ILIKE] folds case. *)
Definition lower_ascii (c : ascii) : ascii :=
  let n := N_of_ascii c in
  if (65 <=? n)%N && (n <=? 90)%N then ascii_of_N (n + 32) else c.

Fixpoint lower (s : string) : string :=
  match s with
  | EmptyString => EmptyString
  | String c rest => String (lower_ascii c) (lower rest)
  end.

(** [LIKE] as PostgreSQL evaluates it: [%] stands for any run of
    characters, [_] for any one character, a backslash makes the character
    after it stand for itself, every other character stands for itself.  A
    pattern that ends in a lone backslash is an error of the engine; the
    pattern of [list_employees] ends in [%], so none does here. *)
Fixpoint like (pattern : string) : string -> bool :=
  match pattern with
  | EmptyString => fun s => match s with EmptyString => true | String _ _ => false end
  | String c p =>
      if Ascii.eqb c "%" then
        fix any (s : string) : bool :=
          like p s || match s with EmptyString => false | String _ s' => any s' end
      else if Ascii.eqb c "_" then
        fun s => match s with EmptyString => false | String _ s' => like p s' end
      else if Ascii.eqb c "\" then
        match p with
        | EmptyString => fun _ => false
        | String e p' =>
            fun s => match s with
                     | EmptyString => false
                     | String d s' => Ascii.eqb e d && like p' s'
                     end
        end
      else
        fun s => match s with EmptyString => false | String d s' => Ascii.eqb c d && like p s' end
  end.

(** [column.ilike(pattern)] *)
Definition ilike (value pattern : string) : bool :=
  like (lower pattern) (lower value).

(** [Employee.full_name.ilike(f"%{full_name}%")] *)
Definition employee_by_full_name_ilike (full_name : string) (e : Employee.t) : bool :=
  ilike (Employee.full_name e) ("%" ++ full_name ++ "%").

(** [Employee.department == department] on a nullable column: a row whose
    department is [NULL] passes no comparison. *)
Definition employee_by_department (v : string) (e : Employee.t) : bool :=
  match Employee.department e with
  | Some d => String.eqb d v
  | None => false
  end.

(* ------------------------------------------------------------------ *)
(** * Employee CRUD *)
(* ------------------------------------------------------------------ *)

(** [create_employee], run by one session while others may commit: [seen]
    is the state its two SELECTs observe and [db] the state its
    [db.commit()] meets.  The body has no [try]: what the commit raises
    leaves the handler as raised, the transaction rolled back. *)
Definition create_employee_txn (now : datetime) (employee_in : EmployeeCreate.t)
    (seen db : Store) : Store * Response Employee.t :=
  match first (employee_by_employee_id (EmployeeCreate.employee_id employee_in))
          (employees seen) with
  | Some _ => (db, HTTPException HTTP_400_BAD_REQUEST "Employee ID already exists")
  | None =>
      match first (employee_by_email (EmployeeCreate.email employee_in))
              (employees seen) with
      | Some _ => (db, HTTPException HTTP_400_BAD_REQUEST "Email is already in use")
      | None =>
          match insert_employee now employee_in db with
          | inl (db', db_employee) => (db', Success HTTP_201_CREATED db_employee)
          | inr exc => (employee_id_drawn db, Raised exc)
          end
      end
  end.

(** [create_employee] with no other session at work. *)
Definition create_employee (now : datetime) (employee_in : EmployeeCreate.t)
    (db : Store) : Store * Response Employee.t :=
  create_employee_txn now employee_in db db.

(** Python truthiness of a [str]. *)
Definition truthy (s : string) : bool := negb (String.eqb s "").

(** The three [if employee_in.<field> is not None] assignments. *)
Definition assign_fields (employee_in : EmployeeUpdate.t) (employee : Employee.t)
  : Employee.t :=
  Employee.mk
    (Employee.id employee)
    (Employee.employee_id employee)
    (match EmployeeUpdate.full_name employee_in with
     | Some v => v
     | None => Employee.full_name employee
     end)
    (match EmployeeUpdate.email employee_in with
     | Some v => v
     | None => Employee.email employee
     end)
    (match EmployeeUpdate.department employee_in with
     | Some v => Some v
     | None => Employee.department employee
     end)
    (Employee.created_at employee).

(** [if employee_in.email and employee_in.email != employee.email] followed
    by the lookup of another holder of the address. *)
Definition email_taken (employee_in : EmployeeUpdate.t) (employee : Employee.t)
    (db : Store) : bool :=
  match EmployeeUpdate.email employee_in with
  | Some v =>
      if truthy v && negb (String.eqb v (Employee.email employee)) then
        match first (employee_by_email v) (employees db) with
        | Some _ => true
        | None => false
        end
      else false
  | None => false
  end.

(** [update_employee], with no other session at work.  [Success] carries
    the row the handler returns; the route ([put_employees]) validates it
    against [EmployeeRead] before answering. *)
Definition update_employee (employee_id : Z) (employee_in : EmployeeUpdate.t)
    (db : Store) : Store * Response Employee.t :=
  match first (employee_by_pk employee_id) (employees db) with
  | None => (db, HTTPException HTTP_404_NOT_FOUND "Employee not found")
  | Some employee =>
      if email_taken employee_in employee db then
        (db, HTTPException HTTP_400_BAD_REQUEST "Email is already in use")
      else
        (update_employee_row (Employee.id employee) (assign_fields employee_in) db,
         Success HTTP_200_OK (assign_fields employee_in employee))
  end.

(** The attributes of the loaded row that the assignments have changed:
    the session writes these columns and no others. *)
Definition modified (employee_in : EmployeeUpdate.t) (loaded : Employee.t)
  : EmployeeUpdate.t :=
  EmployeeUpdate.mk
    (match EmployeeUpdate.full_name employee_in with
     | Some v => if String.eqb v (Employee.full_name loaded) then None else Some v
     | None => None
     end)
    (match EmployeeUpdate.email employee_in with
     | Some v => if String.eqb v (Employee.email loaded) then None else Some v
     | None => None
     end)
    (match EmployeeUpdate.department employee_in with
     | Some v =>
         match Employee.department loaded with
         | Some d => if String.eqb v d then None else Some v
         | None => Some v
         end
     | None => None
     end).

Definition unmodified (m : EmployeeUpdate.t) : bool :=
  match EmployeeUpdate.full_name m, EmployeeUpdate.email m, EmployeeUpdate.department m with
  | None, None, None => true
  | _, _, _ => false
  end.

(** [db.commit()] and [db.refresh(employee)] of [update_employee], on the
    state they meet: the [UPDATE] of the changed columns must find the row
    and keep [employees.email] unique; with nothing changed no [UPDATE] is
    sent and it is the refresh that must find the row. *)
Definition commit_employee_update (pk : Z) (m : EmployeeUpdate.t) (db : Store)
  : (Store * Employee.t) + StorageError :=
  match first (employee_by_pk pk) (employees db) with
  | None => inr (if unmodified m then InvalidRequestError else StaleDataError)
  | Some current =>
      if match EmployeeUpdate.email m with
         | Some v => existsb (fun x => employee_by_email v x && negb (employee_by_pk pk x))
                       (employees db)
         | None => false
         end
      then inr (IntegrityError "employees.email")
      else inl (update_employee_row pk (assign_fields m) db, assign_fields m current)
  end.

(** [update_employee], with [seen] and [db] as in [create_employee_txn]. *)
Definition update_employee_txn (employee_id : Z) (employee_in : EmployeeUpdate.t)
    (seen db : Store) : Store * Response Employee.t :=
  match first (employee_by_pk employee_id) (employees seen) with
  | None => (db, HTTPException HTTP_404_NOT_FOUND "Employee not found")
  | Some employee =>
      if email_taken employee_in employee seen then
        (db, HTTPException HTTP_400_BAD_REQUEST "Email is already in use")
      else
        match commit_employee_update (Employee.id employee)
                (modified employee_in employee) db with
        | inl (db', row) => (db', Success HTTP_200_OK row)
        | inr exc => (db, Raised exc)
        end
  end.

(** [OFFSET] and [LIMIT] are 64-bit integers of the engine. *)
Definition bigint_max : Z := 9223372036854775807.

(** [.offset(skip).limit(limit)].  The handler passes both numbers on
    unchecked; the engine (PostgreSQL) refuses a negative one and one
    beyond its 64-bit range. *)
Definition offset_limit {A : Type} (skip limit : Z) (rows : list A) : Response (list A) :=
  if (skip <? 0) || (limit <? 0) || (bigint_max <? skip) || (bigint_max <? limit)
  then Raised (DataError "OFFSET/LIMIT out of range")
  else Success HTTP_200_OK (firstn (Z.to_nat limit) (skipn (Z.to_nat skip) rows)).

(** [list_employees].  [Success] carries the rows the handler returns; the
    route ([get_employees]) validates each against [EmployeeRead] before
    answering. *)
Definition list_employees (skip limit : Z) (id : option Z)
    (employee_id full_name email department : option string) (db : Store)
  : Response (list Employee.t) :=
  let query := employees db in
  let query := filter_if id employee_by_pk query in
  let query := filter_if employee_id employee_by_employee_id query in
  let query := filter_if full_name employee_by_full_name_ilike query in
  let query := filter_if email employee_by_email query in
  let query := filter_if department employee_by_department query in
  offset_limit skip limit (order_by_desc Employee.created_at query).

Definition delete_employee (employee_id : Z) (db : Store) : Store * Response unit :=
  match first (employee_by_pk employee_id) (employees db) with
  | None => (db, HTTPException HTTP_404_NOT_FOUND "Employee not found")
  | Some employee =>
      (delete_employee_row (Employee.id employee) db, Success HTTP_204_NO_CONTENT tt)
  end.

Section Transport.
Variable EmailStr : string -> bool.

(** [POST /api/employees]: the body is validated against [EmployeeCreate]
    before the handler runs, the returned row against [EmployeeRead]
    after. *)
Definition post_employees (now : datetime) (body : EmployeeCreate.t) (db : Store)
  : Store * Response Employee.t :=
  if EmployeeCreate_validate EmailStr body then
    (fst (create_employee now body db),
     response_model (EmployeeRead_validate EmailStr) (snd (create_employee now body db)))
  else (db, RequestValidationError).

(** [PUT /api/employees/{employee_id}]: the body is validated against
    [EmployeeUpdate] before the handler runs, the returned row against
    [EmployeeRead] after. *)
Definition put_employees (employee_id : Z) (body : EmployeeUpdate.t) (db : Store)
  : Store * Response Employee.t :=
  if EmployeeUpdate_validate EmailStr body then
    (fst (update_employee employee_id body db),
     response_model (EmployeeRead_validate EmailStr)
       (snd (update_employee employee_id body db)))
  else (db, RequestValidationError).

(** [GET /api/employees]: a parameter missing from the query string takes
    the default of the signature, [skip = 0] and [limit = 100]; every
    returned row is validated against [EmployeeRead]. *)
Definition get_employees (skip limit id : option Z)
    (employee_id full_name email department : option string) (db : Store)
  : Response (list Employee.t) :=
  response_model (forallb (EmployeeRead_validate EmailStr))
    (list_employees
       (match skip with Some n => n | None => 0 end)
       (match limit with Some n => n | None => 100 end)
       id employee_id full_name email department db).
End Transport.

(* ------------------------------------------------------------------ *)
(** * Attendance CRUD *)
(* ------------------------------------------------------------------ *)

(** [create_attendance], with [seen] and [db] as in [create_employee_txn]. *)
Definition create_attendance_txn (attendance_in : AttendanceCreate.t)
    (seen db : Store) : Store * Response Attendance.t :=
  match first (employee_by_pk (AttendanceCreate.employee_id attendance_in))
          (employees seen) with
  | None => (db, HTTPException HTTP_404_NOT_FOUND "Employee not found")
  | Some _ =>
      match first (fun r =>
                     attendance_by_employee (AttendanceCreate.employee_id attendance_in) r
                     && attendance_by_date (AttendanceCreate.date attendance_in) r)
              (attendance seen) with
      | Some _ =>
          (db, HTTPException HTTP_400_BAD_REQUEST
                 "Attendance already recorded for this employee and date")
      | None =>
          match insert_attendance attendance_in db with
          | inl (db', db_attendance) => (db', Success HTTP_201_CREATED db_attendance)
          | inr exc => (attendance_id_drawn db, Raised exc)
          end
      end
  end.

Definition create_attendance (attendance_in : AttendanceCreate.t) (db : Store)
  : Store * Response Attendance.t :=
  create_attendance_txn attendance_in db db.

Definition list_attendance (employee_id : option Z) (date_value : option date)
    (status : option AttendanceStatus) (db : Store) : Response (list Attendance.t) :=
  let query := attendance db in
  let query := filter_if employee_id attendance_by_employee query in
  let query := filter_if date_value attendance_by_date query in
  let query := filter_if status attendance_by_status query in
  Success HTTP_200_OK (order_by_desc Attendance.date query).

Definition set_status (st : AttendanceStatus) (a : Attendance.t) : Attendance.t :=
  Attendance.mk (Attendance.id a) (Attendance.employee_id a) (Attendance.date a) st.

Definition update_attendance (attendance_id : Z) (attendance_in : AttendanceUpdate.t)
    (db : Store) : Store * Response Attendance.t :=
  match first (attendance_by_pk attendance_id) (attendance db) with
  | None => (db, HTTPException HTTP_404_NOT_FOUND "Attendance record not found")
  | Some attendance =>
      (update_attendance_row (Attendance.id attendance)
         (set_status (AttendanceUpdate.status attendance_in)) db,
       Success HTTP_200_OK (set_status (AttendanceUpdate.status attendance_in) attendance))
  end.

Definition delete_attendance (attendance_id : Z) (db : Store) : Store * Response unit :=
  match first (attendance_by_pk attendance_id) (attendance db) with
  | None => (db, HTTPException HTTP_404_NOT_FOUND "Attendance record not found")
  | Some attendance =>
      (delete_attendance_row (Attendance.id attendance) db, Success HTTP_204_NO_CONTENT tt)
  end.

Definition list_attendance_for_employee (employee_id : Z) (db : Store)
  : Response (list Attendance.t) :=
  match first (employee_by_pk employee_id) (employees db) with
  | None => HTTPException HTTP_404_NOT_FOUND "Employee not found"
  | Some _ =>
      Success HTTP_200_OK
        (order_by_desc Attendance.date
           (filter (attendance_by_employee employee_id) (attendance db)))
  end.

(** ** The query string of [GET /api/attendance] *)

(** A value of the query string, in the form the transport parses it to. *)
Inductive QueryValue : Type :=
| QInt (n : Z)
| QDate (d : date)
| QStr (s : string).

Definition QueryParams : Type := list (string * QueryValue).

(** The value a name carries; of several, the last. *)
Fixpoint query_get (name : string) (q : QueryParams) : option QueryValue :=
  match q with
  | [] => None
  | (k, v) :: rest =>
      match query_get name rest with
      | Some v' => Some v'
      | None => if String.eqb k name then Some v else None
      end
  end.

(** Binding of an optional parameter: [Some None] when the query string
    does not carry the name, [None] when the value is not of the declared
    type. *)
Definition bind_int (name : string) (q : QueryParams) : option (option Z) :=
  match query_get name q with
  | None => Some None
  | Some (QInt n) => Some (Some n)
  | Some _ => None
  end.

Definition bind_date (name : string) (q : QueryParams) : option (option date) :=
  match query_get name q with
  | None => Some None
  | Some (QDate d) => Some (Some d)
  | Some _ => None
  end.

(** [Literal["Present", "Absent"]] *)
Definition bind_status (name : string) (q : QueryParams)
  : option (option AttendanceStatus) :=
  match query_get name q with
  | None => Some None
  | Some (QStr s) =>
      if String.eqb s "Present" then Some (Some Present)
      else if String.eqb s "Absent" then Some (Some Absent)
      else None
  | Some _ => None
  end.

(** [GET /api/attendance]: each parameter of [list_attendance] is read from
    the query string under the parameter's own name; names the signature
    does not declare are ignored. *)
Definition get_attendance (q : QueryParams) (db : Store) : Response (list Attendance.t) :=
  match bind_int "employee_id" q, bind_date "date_value" q, bind_status "status" q with
  | Some employee_id, Some date_value, Some status =>
      list_attendance employee_id date_value status db
  | _, _, _ => RequestValidationError
  end.

(* ------------------------------------------------------------------ *)
(** * Sequences of requests *)
(* ------------------------------------------------------------------ *)

(** The requests that write. *)
Inductive Request : Type :=
| CreateEmployee (now : datetime) (employee_in : EmployeeCreate.t)
| UpdateEmployee (employee_id : Z) (employee_in : EmployeeUpdate.t)
| DeleteEmployee (employee_id : Z)
| CreateAttendance (attendance_in : AttendanceCreate.t)
| UpdateAttendance (attendance_id : Z) (attendance_in : AttendanceUpdate.t)
| DeleteAttendance (attendance_id : Z).

(** The state a request leaves behind. *)
Definition step (r : Request) (db : Store) : Store :=
  match r with
  | CreateEmployee now e => fst (create_employee now e db)
  | UpdateEmployee pk e => fst (update_employee pk e db)
  | DeleteEmployee pk => fst (delete_employee pk db)
  | CreateAttendance a => fst (create_attendance a db)
  | UpdateAttendance pk a => fst (update_attendance pk a db)
  | DeleteAttendance pk => fst (delete_attendance pk db)
  end.

(** The states of the store: what a sequence of requests makes of the empty
    database. *)
Inductive reachable : Store -> Prop :=
| reachable_empty : reachable empty_store
| reachable_step (r : Request) (db : Store) :
    reachable db -> reachable (step r db).

(** Every row of [attendance] references a row of [employees]. *)
Definition foreign_key_ok (db : Store) : Prop :=
  forall a, In a (attendance db) ->
    exists e, In e (employees db) /\ Employee.id e = Attendance.employee_id a.

(** [uq_employee_date]: no two rows of [attendance] agree on employee and
    date. *)
Definition attendance_key (a : Attendance.t) : Z * Z :=
  (Attendance.employee_id a, Attendance.date a).

Definition uq_employee_date (db : Store) : Prop :=
  NoDup (map attendance_key (attendance db)).

(* ------------------------------------------------------------------ *)
(** * Vocabulary of the properties *)
(* ------------------------------------------------------------------ *)




(** The bounds of [EmployeeBase.full_name], read on the stored rows. *)
Definition full_name_ok (db : Store) : Prop :=
  Forall (fun e => (1 <= String.length (Employee.full_name e) <= 255)%nat) (employees db).

(** Python's [q in s]. *)
Fixpoint contains (q s : string) : bool :=
  String.prefix q s
  || match s with
     | EmptyString => false
     | String _ rest => contains q rest
     end.

(** The name filter as the specification words it: a case-insensitive
    substring test. *)
Definition full_name_contains (full_name : string) (e : Employee.t) : bool :=
  contains (lower full_name) (lower (Employee.full_name e)).

(** No character that [LIKE] reads specially occurs in the text: no [%],
    no [_], no backslash. *)
Fixpoint wildcard_free (s : string) : bool :=
  match s with
  | EmptyString => true
  | String c rest =>
      negb (Ascii.eqb c "%") && negb (Ascii.eqb c "_") && negb (Ascii.eqb c "\")
      && wildcard_free rest
  end.

(** A row passes a filter that is not supplied. *)
Definition passes {A B : Type} (v : option B) (p : B -> A -> bool) (row : A) : bool :=
  match v with
  | Some x => p x row
  | None => true
  end.

(** Rows in descending order of a key. *)
Definition descending {A : Type} (key : A -> Z) (rows : list A) : Prop :=
  StronglySorted (fun a b => key b <= key a) rows.

(** The primary keys: no two rows of a table share an [id], and every
    [id] in use lies below the table's sequence. *)
Definition primary_keys_ok (db : Store) : Prop :=
  NoDup (map Employee.id (employees db)) /\
  Forall (fun e => Employee.id e < employees_id_seq db) (employees db) /\
  NoDup (map Attendance.id (attendance db)) /\
  Forall (fun a => Attendance.id a < attendance_id_seq db) (attendance db).

(** [unique=True] on [employees.employee_id] and on [employees.email]. *)
Definition unique_employee_id (db : Store) : Prop :=
  NoDup (map Employee.employee_id (employees db)).

Definition unique_email (db : Store) : Prop :=
  NoDup (map Employee.email (employees db)).

(** All that the schema declares of the two tables: the primary keys, the
    two unique columns of [employees], [uq_employee_date], the foreign
    key. *)
Definition constraints_ok (db : Store) : Prop :=
  NoDup (map Employee.id (employees db)) /\
  NoDup (map Attendance.id (attendance db)) /\
  unique_employee_id db /\
  unique_email db /\
  uq_employee_date db /\
  foreign_key_ok db.

(** Every stored employee passes [EmployeeRead]. *)
Definition employees_readable (EmailStr : string -> bool) (db : Store) : Prop :=
  forall e, In e (employees db) -> EmployeeRead_validate EmailStr e = true.

(** The handler left through [raise HTTPException(...)]. *)
Definition failed {A : Type} (r : Response A) : bool :=
  match r with
  | HTTPException _ _ => true
  | _ => false
  end.

Definition refused (r : Request) (db : Store) : bool :=
  match r with
  | CreateEmployee now e => failed (snd (create_employee now e db))
  | UpdateEmployee pk e => failed (snd (update_employee pk e db))
  | DeleteEmployee pk => failed (snd (delete_employee pk db))
  | CreateAttendance a => failed (snd (create_attendance a db))
  | UpdateAttendance pk a => failed (snd (update_attendance pk a db))
  | DeleteAttendance pk => failed (snd (delete_attendance pk db))
  end.

(* ------------------------------------------------------------------ *)
(** * Sample data *)
(* ------------------------------------------------------------------ *)

Definition ann : EmployeeCreate.t := EmployeeCreate.mk "E1" "Ann" "ann@x.com" None.
Definition bob : EmployeeCreate.t := EmployeeCreate.mk "E2" "Bob" "bob@x.com" (Some "Sales").

(** 2024-01-01 and 2024-01-02 *)
Definition jan_1 : date := 738886.
Definition jan_2 : date := 738887.

Definition ann_jan_1 : AttendanceCreate.t := AttendanceCreate.mk 1 jan_1 Present.
Definition ann_jan_2 : AttendanceCreate.t := AttendanceCreate.mk 1 jan_2 Absent.
Definition bob_jan_1 : AttendanceCreate.t := AttendanceCreate.mk 2 jan_1 Absent.

(** Ann alone; Ann and Bob; both, with attendance on record. *)
Definition db_ann : Store := step (CreateEmployee 1000 ann) empty_store.
Definition db_staff : Store := step (CreateEmployee 2000 bob) db_ann.
Definition db_attended : Store :=
  step (CreateAttendance bob_jan_1)
    (step (CreateAttendance ann_jan_2)
       (step (CreateAttendance ann_jan_1) db_staff)).

(* ------------------------------------------------------------------ *)
(** * Lemmas on queries *)
(* ------------------------------------------------------------------ *)

Lemma first_none_existsb {A : Type} (p : A -> bool) (rows : list A) :
  first p rows = None -> existsb p rows = false.
Proof.
  unfold first. induction rows as [|x rows IH]; simpl; [reflexivity|].
  destruct (p x); [discriminate | exact IH].
Qed.

Lemma first_none_all {A : Type} (p : A -> bool) (rows : list A) :
  first p rows = None -> forall x, In x rows -> p x = false.
Proof. unfold first. intros H x Hx. exact (find_none p rows H x Hx). Qed.

Lemma first_some_in {A : Type} (p : A -> bool) (rows : list A) (x : A) :
  first p rows = Some x -> In x rows /\ p x = true.
Proof. unfold first. apply find_some. Qed.

Lemma in_first_some {A : Type} (p : A -> bool) (rows : list A) (x : A) :
  In x rows -> p x = true -> exists y, first p rows = Some y.
Proof.
  intros Hin Hp. destruct (first p rows) as [y|] eqn:E; [now exists y|].
  rewrite (first_none_all p rows E x Hin) in Hp. discriminate.
Qed.

Lemma first_filter_none {A : Type} (p : A -> bool) (rows : list A) :
  first p (filter (fun x => negb (p x)) rows) = None.
Proof.
  unfold first. induction rows as [|x rows IH]; simpl; [reflexivity|].
  destruct (p x) eqn:E; simpl; [exact IH|]. rewrite E. exact IH.
Qed.

Lemma first_app_new {A : Type} (p : A -> bool) (rows : list A) (x : A) :
  first p rows = None -> p x = true -> first p (rows ++ [x]) = Some x.
Proof.
  unfold first. induction rows as [|y rows IH]; simpl; intros Hnone Hx.
  - now rewrite Hx.
  - destruct (p y); [discriminate | now apply IH].
Qed.

Lemma all_false_first_none {A : Type} (p : A -> bool) (rows : list A) :
  (forall x, In x rows -> p x = false) -> first p rows = None.
Proof.
  unfold first. induction rows as [|y rows IH]; simpl; intros H; [reflexivity|].
  rewrite (H y (or_introl eq_refl)). apply IH. intros x Hx. apply H. now right.
Qed.

Lemma all_false_filter_nil {A : Type} (p : A -> bool) (rows : list A) :
  (forall x, In x rows -> p x = false) -> filter p rows = [].
Proof.
  induction rows as [|y rows IH]; simpl; intros H; [reflexivity|].
  rewrite (H y (or_introl eq_refl)). apply IH. intros x Hx. apply H. now right.
Qed.

Lemma filter_keep_all {A : Type} (p : A -> bool) (rows : list A) :
  (forall x, In x rows -> p x = true) -> filter p rows = rows.
Proof.
  induction rows as [|y rows IH]; simpl; intros H; [reflexivity|].
  rewrite (H y (or_introl eq_refl)). f_equal. apply IH. intros x Hx. apply H. now right.
Qed.

Lemma NoDup_map_injective {A B : Type} (f : A -> B) (rows : list A) (x y : A) :
  NoDup (map f rows) -> In x rows -> In y rows -> f x = f y -> x = y.
Proof.
  induction rows as [|z rows IH]; simpl; intros Hnd Hx Hy Heq; [contradiction|].
  inversion Hnd as [|? ? Hz Hnd']; subst.
  destruct Hx as [-> | Hx], Hy as [-> | Hy]; [reflexivity | | | now apply IH].
  - exfalso. apply Hz. rewrite Heq. now apply in_map.
  - exfalso. apply Hz. rewrite <- Heq. now apply in_map.
Qed.

Lemma employee_by_pk_spec (pk : Z) (e : Employee.t) :
  employee_by_pk pk e = true <-> Employee.id e = pk.
Proof. unfold employee_by_pk. apply Z.eqb_eq. Qed.

Lemma attendance_by_employee_spec (pk : Z) (a : Attendance.t) :
  attendance_by_employee pk a = true <-> Attendance.employee_id a = pk.
Proof. unfold attendance_by_employee. apply Z.eqb_eq. Qed.

Lemma same_key_spec (a : AttendanceCreate.t) (r : Attendance.t) :
  attendance_by_employee (AttendanceCreate.employee_id a) r
  && attendance_by_date (AttendanceCreate.date a) r = true
  <-> attendance_key r = (AttendanceCreate.employee_id a, AttendanceCreate.date a).
Proof.
  unfold attendance_by_employee, attendance_by_date, attendance_key.
  rewrite andb_true_iff, !Z.eqb_eq. split.
  - intros [-> ->]. reflexivity.
  - intros H. inversion H. split; reflexivity.
Qed.

(* ------------------------------------------------------------------ *)
(** * Create: failures that write nothing *)
(* ------------------------------------------------------------------ *)

(** C1. In every state of the store, a Create Employee request whose
    [employee_id] or [email] is that of a stored employee is answered with
    HTTP 400 (the duplicate-key error, with one of the handler's two
    messages) and the store, employees and attendance alike, is left as it
    was. *)
Theorem create_employee_duplicate_key (now : datetime) (e : EmployeeCreate.t) (db : Store) :
  (exists x, In x (employees db) /\
     (Employee.employee_id x = EmployeeCreate.employee_id e \/
      Employee.email x = EmployeeCreate.email e)) ->
  exists detail,
    create_employee now e db = (db, HTTPException 400 detail) /\
    (detail = "Employee ID already exists" \/ detail = "Email is already in use").
Proof.
  intros [x [Hin Hdup]].
  unfold create_employee, create_employee_txn, HTTP_400_BAD_REQUEST.
  destruct (first (employee_by_employee_id _) _) as [y|] eqn:Eid.
  - eexists; split; [reflexivity | now left].
  - destruct (first (employee_by_email _) _) as [y|] eqn:Eem.
    + eexists; split; [reflexivity | now right].
    + exfalso. destruct Hdup as [Hd | Hd].
      * pose proof (first_none_all _ _ Eid x Hin) as H.
        unfold employee_by_employee_id in H. rewrite Hd, String.eqb_refl in H. discriminate.
      * pose proof (first_none_all _ _ Eem x Hin) as H.
        unfold employee_by_email in H. rewrite Hd, String.eqb_refl in H. discriminate.
Qed.

(** C3. In every state of the store, a Create Attendance request whose
    [employee_id] is the id of no stored employee is answered with
    HTTP 404 "Employee not found" and the store is left as it was. *)
Theorem create_attendance_unknown_employee (a : AttendanceCreate.t) (db : Store) :
  (forall e, In e (employees db) -> Employee.id e <> AttendanceCreate.employee_id a) ->
  create_attendance a db = (db, HTTPException 404 "Employee not found").
Proof.
  intros Hnone. unfold create_attendance, create_attendance_txn.
  destruct (first (employee_by_pk _) _) as [e|] eqn:E; [|reflexivity].
  apply first_some_in in E. destruct E as [Hin Hp].
  apply employee_by_pk_spec in Hp. now apply Hnone in Hin.
Qed.

(* ------------------------------------------------------------------ *)
(** * Invariants of the reachable states *)
(* ------------------------------------------------------------------ *)

Lemma NoDup_map_filter {A B : Type} (f : A -> B) (p : A -> bool) (rows : list A) :
  NoDup (map f rows) -> NoDup (map f (filter p rows)).
Proof.
  induction rows as [|x rows IH]; simpl; intros H; [exact H|].
  inversion H as [|? ? Hnotin Hrest]; subst.
  destruct (p x); simpl; [constructor|]; auto.
  intros Hin. apply Hnotin. apply in_map_iff in Hin.
  destruct Hin as [y [Hy Hin]]. apply filter_In in Hin.
  apply in_map_iff. exists y. tauto.
Qed.

Lemma map_key_update (pk : Z) (st : AttendanceStatus) (rows : list Attendance.t) :
  map attendance_key (map (fun a => if attendance_by_pk pk a then set_status st a else a) rows)
  = map attendance_key rows.
Proof.
  rewrite map_map. apply map_ext. intros a.
  destruct (attendance_by_pk pk a); reflexivity.
Qed.

Lemma in_update_employee_row (pk : Z) (f : Employee.t -> Employee.t) (rows : list Employee.t) :
  (forall e, Employee.id (f e) = Employee.id e) ->
  forall e, In e rows ->
    exists e', In e' (map (fun x => if employee_by_pk pk x then f x else x) rows)
               /\ Employee.id e' = Employee.id e.
Proof.
  intros Hf e Hin.
  exists (if employee_by_pk pk e then f e else e). split.
  - apply in_map_iff. now exists e.
  - destruct (employee_by_pk pk e); [apply Hf | reflexivity].
Qed.

Lemma create_attendance_inserts (a : AttendanceCreate.t) (db : Store) :
  fst (create_attendance a db) = db \/
  (exists row e,
     fst (create_attendance a db)
     = mkStore (employees db) (attendance db ++ [row])
         (employees_id_seq db) (attendance_id_seq db + 1) /\
     attendance_key row = (AttendanceCreate.employee_id a, AttendanceCreate.date a) /\
     In e (employees db) /\ Employee.id e = AttendanceCreate.employee_id a /\
     ~ In (attendance_key row) (map attendance_key (attendance db))).
Proof.
  unfold create_attendance, create_attendance_txn.
  destruct (first (employee_by_pk _) _) as [e|] eqn:Ee; [|now left].
  destruct (first (fun r => _ && _) (attendance db)) as [r|] eqn:Er; [now left|].
  apply first_some_in in Ee. destruct Ee as [Hin Hid].
  unfold insert_attendance.
  assert (Hex : existsb (employee_by_pk (AttendanceCreate.employee_id a)) (employees db) = true).
  { apply existsb_exists. now exists e. }
  rewrite Hex, (first_none_existsb _ _ Er). simpl.
  right. eexists. exists e. split; [reflexivity|].
  split; [reflexivity|]. split; [exact Hin|].
  split; [now apply employee_by_pk_spec|].
  intros Hdup. apply in_map_iff in Hdup. destruct Hdup as [r [Hk Hr]].
  pose proof (first_none_all _ _ Er r Hr) as Hf. simpl in Hf, Hk.
  assert (Ht : attendance_by_employee (AttendanceCreate.employee_id a) r
               && attendance_by_date (AttendanceCreate.date a) r = true)
    by (apply same_key_spec; exact Hk).
  rewrite Ht in Hf. discriminate.
Qed.

Lemma create_employee_appends (now : datetime) (e : EmployeeCreate.t) (db : Store) :
  exists rows,
    employees (fst (create_employee now e db)) = (employees db ++ rows)%list /\
    attendance (fst (create_employee now e db)) = attendance db.
Proof.
  unfold create_employee, create_employee_txn, insert_employee.
  destruct (first (employee_by_employee_id _) _);
    [exists []; now rewrite app_nil_r|].
  destruct (first (employee_by_email _) _);
    [exists []; now rewrite app_nil_r|].
  destruct (existsb (employee_by_employee_id _) _);
    [exists []; now rewrite app_nil_r|].
  destruct (existsb (employee_by_email _) _);
    [exists []; now rewrite app_nil_r|].
  simpl. eexists. split; reflexivity.
Qed.

Lemma step_foreign_key (r : Request) (db : Store) :
  foreign_key_ok db -> foreign_key_ok (step r db).
Proof.
  intros Hfk. destruct r as [now e | pk e | pk | a | pk a | pk]; simpl.
  - destruct (create_employee_appends now e db) as [rows [He Ha]].
    intros x Hx. rewrite Ha in Hx. destruct (Hfk x Hx) as [y [Hy Hid]].
    exists y. split; [|exact Hid]. rewrite He. apply in_or_app. now left.
  - unfold update_employee.
    destruct (first (employee_by_pk pk) (employees db)) as [emp|]; [|exact Hfk].
    destruct (email_taken e emp db); [exact Hfk|].
    intros x Hx. simpl in Hx. destruct (Hfk x Hx) as [y [Hy Hid]].
    destruct (in_update_employee_row (Employee.id emp) (assign_fields e) (employees db))
      with (e := y) as [y' [Hy' Hid']]; [reflexivity | exact Hy |].
    exists y'. split; [exact Hy' | congruence].
  - unfold delete_employee.
    destruct (first (employee_by_pk pk) (employees db)) as [emp|]; [|exact Hfk].
    intros x Hx. simpl in Hx. apply filter_In in Hx. destruct Hx as [Hx Hne].
    destruct (Hfk x Hx) as [y [Hy Hid]]. exists y. split; [|exact Hid].
    simpl. apply filter_In. split; [exact Hy|].
    unfold attendance_by_employee in Hne. unfold employee_by_pk. now rewrite Hid.
  - destruct (create_attendance_inserts a db) as [-> | [row [e [-> [Hk [He [Hid _]]]]]]];
      [exact Hfk|].
    intros x Hx. simpl in Hx. apply in_app_or in Hx. destruct Hx as [Hx | [<- | []]].
    + exact (Hfk x Hx).
    + exists e. split; [exact He|]. unfold attendance_key in Hk. inversion Hk. congruence.
  - unfold update_attendance.
    destruct (first (attendance_by_pk pk) (attendance db)) as [att|]; [|exact Hfk].
    intros x Hx. simpl in Hx. apply in_map_iff in Hx. destruct Hx as [x0 [Hx0 Hin]].
    destruct (Hfk x0 Hin) as [y [Hy Hid]]. exists y. split; [exact Hy|].
    rewrite Hid, <- Hx0. destruct (attendance_by_pk _ x0); reflexivity.
  - unfold delete_attendance.
    destruct (first (attendance_by_pk pk) (attendance db)) as [att|]; [|exact Hfk].
    intros x Hx. simpl in Hx. apply filter_In in Hx. destruct Hx as [Hx _].
    exact (Hfk x Hx).
Qed.

Lemma step_uq_employee_date (r : Request) (db : Store) :
  uq_employee_date db -> uq_employee_date (step r db).
Proof.
  unfold uq_employee_date.
  intros Huq. destruct r as [now e | pk e | pk | a | pk a | pk]; simpl.
  - destruct (create_employee_appends now e db) as [rows [_ Ha]]. now rewrite Ha.
  - unfold update_employee.
    destruct (first (employee_by_pk pk) (employees db)) as [emp|]; [|exact Huq].
    destruct (email_taken e emp db); exact Huq.
  - unfold delete_employee.
    destruct (first (employee_by_pk pk) (employees db)) as [emp|]; [|exact Huq].
    simpl. now apply NoDup_map_filter.
  - destruct (create_attendance_inserts a db) as [-> | [row [e [-> [_ [_ [_ Hnew]]]]]]];
      [exact Huq|].
    simpl. rewrite map_app. simpl.
    apply Permutation_NoDup with (l := attendance_key row :: map attendance_key (attendance db)).
    + apply Permutation_cons_append.
    + constructor; assumption.
  - unfold update_attendance.
    destruct (first (attendance_by_pk pk) (attendance db)) as [att|]; [|exact Huq].
    simpl. now rewrite map_key_update.
  - unfold delete_attendance.
    destruct (first (attendance_by_pk pk) (attendance db)) as [att|]; [|exact Huq].
    simpl. now apply NoDup_map_filter.
Qed.

Lemma reachable_foreign_key (db : Store) : reachable db -> foreign_key_ok db.
Proof.
  induction 1 as [|r db _ IH].
  - intros a [].
  - now apply step_foreign_key.
Qed.

Lemma reachable_uq_employee_date (db : Store) : reachable db -> uq_employee_date db.
Proof.
  induction 1 as [|r db _ IH].
  - constructor.
  - now apply step_uq_employee_date.
Qed.

(** C2. In every state of the store at most one attendance record exists
    per employee and calendar day, and a Create Attendance request whose
    employee and date are those of a stored record is answered with
    HTTP 400 (the duplicate-key error) and inserts nothing: the store is
    left as it was. *)
Theorem create_attendance_duplicate_key (db : Store) :
  reachable db ->
  uq_employee_date db /\
  forall a : AttendanceCreate.t,
    (exists r, In r (attendance db) /\
       Attendance.employee_id r = AttendanceCreate.employee_id a /\
       Attendance.date r = AttendanceCreate.date a) ->
    create_attendance a db
    = (db, HTTPException 400 "Attendance already recorded for this employee and date").
Proof.
  intros Hreach. split; [now apply reachable_uq_employee_date|].
  intros a [r [Hr [Hemp Hdate]]].
  destruct (reachable_foreign_key db Hreach r Hr) as [e [He Hid]].
  unfold create_attendance, create_attendance_txn.
  destruct (in_first_some (employee_by_pk (AttendanceCreate.employee_id a)) (employees db) e He)
    as [e' ->]; [apply employee_by_pk_spec; congruence|].
  destruct (in_first_some
              (fun r => attendance_by_employee (AttendanceCreate.employee_id a) r
                        && attendance_by_date (AttendanceCreate.date a) r)
              (attendance db) r Hr) as [r' ->]; [|reflexivity].
  apply same_key_spec. unfold attendance_key. now rewrite Hemp, Hdate.
Qed.

Lemma db_attended_reachable : reachable db_attended.
Proof. unfold db_attended, db_staff, db_ann. repeat apply reachable_step. apply reachable_empty. Qed.

Lemma create_employee_duplicate_key_witness :
  exists detail,
    create_employee 3000 (EmployeeCreate.mk "E1" "Anne" "anne@x.com" None) db_staff
    = (db_staff, HTTPException 400 detail) /\
    (detail = "Employee ID already exists" \/ detail = "Email is already in use").
Proof.
  apply create_employee_duplicate_key.
  exists (Employee.mk 1 "E1" "Ann" "ann@x.com" None 1000).
  split; [vm_compute; now left | now left].
Defined.

Lemma create_attendance_unknown_employee_witness :
  create_attendance (AttendanceCreate.mk 7 jan_1 Present) db_attended
  = (db_attended, HTTPException 404 "Employee not found").
Proof.
  apply create_attendance_unknown_employee.
  intros e He. vm_compute in He. destruct He as [<- | [<- | []]]; vm_compute; discriminate.
Defined.

Lemma create_attendance_duplicate_key_witness :
  reachable db_attended /\
  uq_employee_date db_attended /\
  create_attendance (AttendanceCreate.mk 1 jan_1 Absent) db_attended
  = (db_attended, HTTPException 400 "Attendance already recorded for this employee and date").
Proof.
  split; [exact db_attended_reachable|].
  destruct (create_attendance_duplicate_key db_attended db_attended_reachable) as [Huq Hdup].
  split; [exact Huq|]. apply Hdup.
  exists (Attendance.mk 1 1 jan_1 Present).
  split; [vm_compute; now left | split; reflexivity].
Defined.

(* ------------------------------------------------------------------ *)
(** * Delete Employee *)
(* ------------------------------------------------------------------ *)

Lemma first_employee_by_pk_deleted (pk : Z) (db : Store) :
  first (employee_by_pk pk) (employees (delete_employee_row pk db)) = None.
Proof. simpl. apply first_filter_none. Qed.

(** C4. Deleting a stored employee by its id is answered with HTTP 204 and
    no body; the employee and every attendance record that references it
    are gone, every other employee and attendance record is kept; and
    afterwards each lookup of that id (by Update Employee, by Delete
    Employee, by List Attendance For Employee) is answered with HTTP 404
    "Employee not found". *)
Theorem delete_employee_cascade (db : Store) (e : Employee.t) :
  In e (employees db) ->
  let pk := Employee.id e in
  let db' := fst (delete_employee pk db) in
  snd (delete_employee pk db) = Success 204 tt /\
  (forall x, In x (employees db') <-> In x (employees db) /\ Employee.id x <> pk) /\
  (forall a, In a (attendance db') <->
             In a (attendance db) /\ Attendance.employee_id a <> pk) /\
  (forall employee_in,
     update_employee pk employee_in db' = (db', HTTPException 404 "Employee not found")) /\
  delete_employee pk db' = (db', HTTPException 404 "Employee not found") /\
  list_attendance_for_employee pk db' = HTTPException 404 "Employee not found" /\
  list_attendance (Some pk) None None db' = Success 200 [].
Proof.
  intros Hin pk db'.
  assert (Hdel : delete_employee pk db = (delete_employee_row pk db, Success 204 tt)).
  { unfold delete_employee.
    destruct (in_first_some (employee_by_pk pk) (employees db) e Hin) as [y Hy];
      [now apply employee_by_pk_spec|].
    rewrite Hy. apply first_some_in in Hy. destruct Hy as [_ Hy].
    apply employee_by_pk_spec in Hy. now rewrite Hy. }
  subst db'. rewrite Hdel. simpl fst. simpl snd.
  pose proof (first_employee_by_pk_deleted pk db) as Hgone.
  split; [reflexivity|]. split; [|split; [|split; [|split; [|split]]]].
  - intros x. simpl. rewrite filter_In, negb_true_iff.
    unfold employee_by_pk. rewrite Z.eqb_neq. tauto.
  - intros a. simpl. rewrite filter_In, negb_true_iff.
    unfold attendance_by_employee. rewrite Z.eqb_neq. tauto.
  - intros employee_in. unfold update_employee. now rewrite Hgone.
  - unfold delete_employee. now rewrite Hgone.
  - unfold list_attendance_for_employee. now rewrite Hgone.
  - unfold list_attendance. simpl.
    replace (filter (attendance_by_employee pk)
               (filter (fun a => negb (attendance_by_employee pk a)) (attendance db)))
      with (@nil Attendance.t); [reflexivity|].
    induction (attendance db) as [|a rows IH]; simpl; [reflexivity|].
    destruct (attendance_by_employee pk a) eqn:E; simpl; [exact IH|].
    now rewrite E.
Qed.

Lemma delete_employee_cascade_witness :
  snd (delete_employee 1 db_attended) = Success 204 tt /\
  list_attendance_for_employee 1 (fst (delete_employee 1 db_attended))
  = HTTPException 404 "Employee not found" /\
  delete_employee 1 (fst (delete_employee 1 db_attended))
  = (fst (delete_employee 1 db_attended), HTTPException 404 "Employee not found").
Proof.
  destruct (delete_employee_cascade db_attended
              (Employee.mk 1 "E1" "Ann" "ann@x.com" None 1000))
    as [Hresp [_ [_ [_ [Hdel [Hlist _]]]]]].
  - vm_compute. now left.
  - split; [exact Hresp|]. split; [exact Hlist | exact Hdel].
Defined.

Example delete_employee_sample :
  delete_employee 1 db_attended
  = (mkStore [Employee.mk 2 "E2" "Bob" "bob@x.com" (Some "Sales") 2000]
       [Attendance.mk 3 2 jan_1 Absent] 3 4,
     Success 204 tt).
Proof. reflexivity. Qed.

(* ------------------------------------------------------------------ *)
(** * Update Employee *)
(* ------------------------------------------------------------------ *)

Lemma Forall2_map_right {A : Type} (R : A -> A -> Prop) (g : A -> A) (rows : list A) :
  (forall x, In x rows -> R x (g x)) -> Forall2 R rows (map g rows).
Proof.
  induction rows as [|x rows IH]; simpl; intros H; constructor.
  - apply H. now left.
  - apply IH. intros y Hy. apply H. now right.
Qed.


(** X13. An address held by a stored employee, supplied to another: the update
    is refused and writes nothing. *)
Lemma update_employee_email_in_use (pk : Z) (employee_in : EmployeeUpdate.t)
    (employee other : Employee.t) (v : string) (db : Store) :
  first (employee_by_pk pk) (employees db) = Some employee ->
  EmployeeUpdate.email employee_in = Some v ->
  v <> "" -> v <> Employee.email employee ->
  In other (employees db) -> Employee.email other = v ->
  update_employee pk employee_in db = (db, HTTPException 400 "Email is already in use").
Proof.
  intros Hfirst Hv Hne Hcur Hin Hother.
  unfold update_employee, email_taken, truthy. rewrite Hfirst, Hv.
  apply String.eqb_neq in Hne, Hcur. rewrite Hne, Hcur. simpl.
  destruct (in_first_some (employee_by_email v) (employees db) other Hin) as [y ->];
    [|reflexivity].
  unfold employee_by_email. rewrite Hother. apply String.eqb_refl.
Qed.





(** C10. An update whose [department] is null leaves the department of
    every stored employee as it was, whatever else the payload carries and
    whatever the outcome of the request: a department that holds a value is
    never reset to null by such a payload. *)
Theorem update_employee_null_department (db : Store) (pk : Z)
    (full_name email : option string) :
  let db' := fst (update_employee pk (EmployeeUpdate.mk full_name email None) db) in
  Forall2 (fun x x' => Employee.id x' = Employee.id x /\
                       Employee.department x' = Employee.department x /\
                       (forall d, Employee.department x = Some d ->
                                  Employee.department x' = Some d))
    (employees db) (employees db').
Proof.
  intros db'. subst db'. unfold update_employee.
  assert (Hsame : forall rows : list Employee.t,
             Forall2 (fun x x' => Employee.id x' = Employee.id x /\
                                  Employee.department x' = Employee.department x /\
                                  (forall d, Employee.department x = Some d ->
                                             Employee.department x' = Some d))
               rows rows).
  { intros rows. rewrite <- (map_id rows) at 2. apply Forall2_map_right. now intros. }
  destruct (first (employee_by_pk pk) (employees db)) as [employee|]; [|apply Hsame].
  destruct (email_taken _ employee db); [apply Hsame|].
  simpl. apply Forall2_map_right. intros x _.
  destruct (employee_by_pk (Employee.id employee) x); simpl; now repeat split.
Qed.

(* ------------------------------------------------------------------ *)
(** * The bounds of full_name *)
(* ------------------------------------------------------------------ *)

(** X24. Create Employee keeps every stored [full_name] within 1..255. *)
Lemma post_employees_full_name_ok (EmailStr : string -> bool) (now : datetime)
    (body : EmployeeCreate.t) (db : Store) :
  full_name_ok db -> full_name_ok (fst (post_employees EmailStr now body db)).
Proof.
  unfold full_name_ok, post_employees, EmployeeCreate_validate.
  intros Hok.
  destruct (min_length 1 (EmployeeCreate.employee_id body)); [|exact Hok].
  destruct (max_length 50 (EmployeeCreate.employee_id body)); [|exact Hok].
  destruct (min_length 1 (EmployeeCreate.full_name body)) eqn:Hmin; [|exact Hok].
  destruct (max_length 255 (EmployeeCreate.full_name body)) eqn:Hmax; [|exact Hok].
  destruct (EmailStr (EmployeeCreate.email body)); [|exact Hok].
  destruct (optional (max_length 100) (EmployeeCreate.department body)); [|exact Hok].
  simpl. unfold create_employee, create_employee_txn, insert_employee.
  destruct (first (employee_by_employee_id _) _); [exact Hok|].
  destruct (first (employee_by_email _) _); [exact Hok|].
  destruct (existsb (employee_by_employee_id _) _); [exact Hok|].
  destruct (existsb (employee_by_email _) _); [exact Hok|].
  simpl. apply Forall_app. split; [exact Hok|].
  constructor; [|constructor]. simpl.
  unfold min_length in Hmin. unfold max_length in Hmax.
  apply Nat.leb_le in Hmin, Hmax. lia.
Qed.

(** X25. Update Employee keeps the upper bound. *)
Lemma put_employees_full_name_max (EmailStr : string -> bool) (pk : Z)
    (body : EmployeeUpdate.t) (db : Store) :
  Forall (fun e => (String.length (Employee.full_name e) <= 255)%nat) (employees db) ->
  Forall (fun e => (String.length (Employee.full_name e) <= 255)%nat)
    (employees (fst (put_employees EmailStr pk body db))).
Proof.
  unfold put_employees, EmployeeUpdate_validate. intros Hok.
  destruct (optional (max_length 255) (EmployeeUpdate.full_name body)) eqn:Hmax;
    [|exact Hok].
  destruct (optional EmailStr (EmployeeUpdate.email body)); [|exact Hok].
  destruct (optional (max_length 100) (EmployeeUpdate.department body)); [|exact Hok].
  simpl. unfold update_employee.
  destruct (first (employee_by_pk pk) (employees db)) as [employee|]; [|exact Hok].
  destruct (email_taken body employee db); [exact Hok|].
  simpl. apply Forall_map. revert Hok. apply Forall_impl. intros x Hx.
  destruct (employee_by_pk (Employee.id employee) x); [|exact Hx].
  unfold assign_fields. simpl.
  destruct (EmployeeUpdate.full_name body) as [v|]; [|exact Hx].
  simpl in Hmax. unfold max_length in Hmax. now apply Nat.leb_le in Hmax.
Qed.

(** C7 fails on Update Employee. [EmployeeUpdate.full_name] carries
    [max_length=255] and no [min_length]: the body with an empty
    [full_name] passes validation, the handler assigns and commits it, and
    the stored employee is left with an empty name; the answer is an
    internal error, the returned row failing [EmployeeRead]. *)
Theorem update_employee_empty_full_name (EmailStr : string -> bool) :
  let body := EmployeeUpdate.mk (Some "") None None in
  full_name_ok db_ann /\
  EmployeeUpdate_validate EmailStr body = true /\
  put_employees EmailStr 1 body db_ann
  = (mkStore [Employee.mk 1 "E1" "" "ann@x.com" None 1000] [] 2 1,
     ResponseValidationError) /\
  ~ full_name_ok (fst (put_employees EmailStr 1 body db_ann)).
Proof.
  split; [|split; [|split]].
  - constructor; [simpl; lia | constructor].
  - reflexivity.
  - reflexivity.
  - intros H. inversion H as [|? ? Hlen _]; subst. simpl in Hlen. lia.
Qed.

(* ------------------------------------------------------------------ *)
(** * A commit the storage layer rejects *)
(* ------------------------------------------------------------------ *)

(** X22. With no other session at work the pre-checks cover the constraints:
    the commit of a create is never rejected. *)
Lemma create_employee_commit_accepted (now : datetime) (e : EmployeeCreate.t)
    (db : Store) (exc : StorageError) :
  snd (create_employee now e db) <> Raised exc.
Proof.
  unfold create_employee, create_employee_txn, insert_employee.
  destruct (first (employee_by_employee_id _) _) eqn:Eid; [discriminate|].
  destruct (first (employee_by_email _) _) eqn:Eem; [discriminate|].
  rewrite (first_none_existsb _ _ Eid), (first_none_existsb _ _ Eem). discriminate.
Qed.

(** X23. Likewise for Create Attendance: the lookups of the employee and of the
    (employee, date) pair cover the foreign key and [uq_employee_date]. *)
Lemma create_attendance_commit_accepted (a : AttendanceCreate.t) (db : Store)
    (exc : StorageError) :
  snd (create_attendance a db) <> Raised exc.
Proof.
  unfold create_attendance, create_attendance_txn, insert_attendance.
  destruct (first (employee_by_pk _) _) as [e|] eqn:Ee; [|discriminate].
  destruct (first (fun r => _ && _) (attendance db)) eqn:Er; [discriminate|].
  apply first_some_in in Ee.
  assert (Hex : existsb (employee_by_pk (AttendanceCreate.employee_id a)) (employees db) = true)
    by (apply existsb_exists; now exists e).
  rewrite Hex, (first_none_existsb _ _ Er). discriminate.
Qed.

Lemma assign_modified (employee_in : EmployeeUpdate.t) (x : Employee.t) :
  assign_fields (modified employee_in x) x = assign_fields employee_in x.
Proof.
  destruct x as [i eid fn em dp ca]. destruct employee_in as [a b c].
  unfold assign_fields, modified. simpl. f_equal.
  - destruct a as [a|]; [|reflexivity].
    destruct (String.eqb_spec a fn); [now subst | reflexivity].
  - destruct b as [b|]; [|reflexivity].
    destruct (String.eqb_spec b em); [now subst | reflexivity].
  - destruct c as [c|]; [|reflexivity].
    destruct dp as [d|]; [|reflexivity].
    destruct (String.eqb_spec c d); [now subst | reflexivity].
Qed.

(** With no other session at work, distinct ids and a supplied email that
    is not empty, the commit of Update Employee is accepted and the
    request is what [update_employee] makes of it. *)
Lemma update_employee_txn_alone (pk : Z) (employee_in : EmployeeUpdate.t) (db : Store) :
  NoDup (map Employee.id (employees db)) ->
  (forall v, EmployeeUpdate.email employee_in = Some v -> v <> "") ->
  update_employee_txn pk employee_in db db = update_employee pk employee_in db.
Proof.
  intros Hid Hne. unfold update_employee_txn, update_employee.
  destruct (first (employee_by_pk pk) (employees db)) as [employee|] eqn:Efound;
    [|reflexivity].
  destruct (email_taken employee_in employee db) eqn:Etaken; [reflexivity|].
  pose proof (first_some_in _ _ _ Efound) as [Hin Hpk].
  apply employee_by_pk_spec in Hpk.
  unfold commit_employee_update. rewrite Hpk, Efound.
  assert (Hcheck : match EmployeeUpdate.email (modified employee_in employee) with
                   | Some v => existsb (fun x => employee_by_email v x
                                                 && negb (employee_by_pk pk x))
                                 (employees db)
                   | None => false
                   end = false).
  { unfold modified. simpl. unfold email_taken in Etaken.
    destruct (EmployeeUpdate.email employee_in) as [v|] eqn:Ev; [|reflexivity].
    destruct (String.eqb_spec v (Employee.email employee)) as [_ | Hdiff]; [reflexivity|].
    assert (Htruthy : truthy v = true).
    { unfold truthy. apply negb_true_iff, String.eqb_neq. now apply Hne. }
    rewrite Htruthy in Etaken. simpl in Etaken.
    destruct (first (employee_by_email v) (employees db)) eqn:Ey; [discriminate|].
    apply not_true_is_false. intros Hex. apply existsb_exists in Hex.
    destruct Hex as [x [Hx Hp]]. apply andb_true_iff in Hp. destruct Hp as [Hp _].
    rewrite (first_none_all _ _ Ey x Hx) in Hp. discriminate. }
  rewrite Hcheck, assign_modified. f_equal.
  unfold update_employee_row. f_equal. apply map_ext_in. intros x Hx.
  unfold employee_by_pk. destruct (Z.eqb_spec (Employee.id x) pk) as [Hk | _];
    [|reflexivity].
  assert (x = employee)
    by (apply (NoDup_map_injective Employee.id (employees db)); congruence).
  subst x. apply assign_modified.
Qed.

Lemma delete_employee_row_constraints (pk : Z) (db : Store) :
  constraints_ok db -> constraints_ok (delete_employee_row pk db).
Proof.
  unfold constraints_ok, unique_employee_id, unique_email, uq_employee_date.
  intros [Hid [Haid [Heid [Hem [Huq Hfk]]]]]. simpl.
  repeat split; try (now apply NoDup_map_filter).
  intros a Ha. simpl in Ha. apply filter_In in Ha. destruct Ha as [Ha Hne].
  destruct (Hfk a Ha) as [e [He Hide]]. exists e. split; [|exact Hide].
  simpl. apply filter_In. split; [exact He|].
  unfold attendance_by_employee in Hne. unfold employee_by_pk. now rewrite Hide.
Qed.

Lemma update_attendance_row_constraints (pk : Z) (st : AttendanceStatus) (db : Store) :
  constraints_ok db -> constraints_ok (update_attendance_row pk (set_status st) db).
Proof.
  unfold constraints_ok, unique_employee_id, unique_email, uq_employee_date.
  intros [Hid [Haid [Heid [Hem [Huq Hfk]]]]]. simpl.
  split; [exact Hid|]. split; [|split; [exact Heid|split; [exact Hem|split]]].
  - rewrite map_map.
    replace (map (fun x => Attendance.id
                    (if attendance_by_pk pk x then set_status st x else x)) (attendance db))
      with (map Attendance.id (attendance db)); [exact Haid|].
    apply map_ext. intros x. now destruct (attendance_by_pk pk x).
  - now rewrite map_key_update.
  - intros a Ha. simpl in Ha. apply in_map_iff in Ha. destruct Ha as [a0 [Ha0 Hin]].
    destruct (Hfk a0 Hin) as [e [He Hide]]. exists e. split; [exact He|].
    rewrite Hide, <- Ha0. now destruct (attendance_by_pk pk a0).
Qed.

Lemma delete_attendance_row_constraints (pk : Z) (db : Store) :
  constraints_ok db -> constraints_ok (delete_attendance_row pk db).
Proof.
  unfold constraints_ok, unique_employee_id, unique_email, uq_employee_date.
  intros [Hid [Haid [Heid [Hem [Huq Hfk]]]]]. simpl.
  repeat split; try assumption; try (now apply NoDup_map_filter).
  intros a Ha. simpl in Ha. apply filter_In in Ha. destruct Ha as [Ha _].
  exact (Hfk a Ha).
Qed.

(** C9, as the code has it. No write handler catches what its commit
    raises.  Where the pre-checks pass on the state the handler reads and
    the state its commit meets violates a constraint of the schema, the
    [IntegrityError] of the storage layer leaves the handler as raised and
    no HTTP 400 is produced: in Create Employee (a row committed meanwhile
    holds the [employee_id] or the [email]), in Create Attendance (the
    [(employee_id, date)] pair is taken, or the referenced employee is
    gone), in Update Employee (another row committed meanwhile holds the
    new [email]).  The tables are then as the commit met them; a rejected
    insert has drawn an [id] from its sequence.  The writes of Delete
    Employee, Update Attendance and Delete Attendance keep every
    constraint of the schema in whatever state they meet: no constraint
    violation arises in them. *)
Theorem commit_rejection_propagates :
  (forall (now : datetime) (e : EmployeeCreate.t) (seen db : Store),
     (forall x, In x (employees seen) ->
        Employee.employee_id x <> EmployeeCreate.employee_id e /\
        Employee.email x <> EmployeeCreate.email e) ->
     (exists x, In x (employees db) /\
        (Employee.employee_id x = EmployeeCreate.employee_id e \/
         Employee.email x = EmployeeCreate.email e)) ->
     exists constraint,
       create_employee_txn now e seen db
       = (mkStore (employees db) (attendance db)
            (employees_id_seq db + 1) (attendance_id_seq db),
          Raised (IntegrityError constraint))) /\
  (forall (a : AttendanceCreate.t) (seen db : Store),
     (exists e, In e (employees seen) /\ Employee.id e = AttendanceCreate.employee_id a) ->
     (forall r, In r (attendance seen) ->
        attendance_key r <> (AttendanceCreate.employee_id a, AttendanceCreate.date a)) ->
     ((forall e, In e (employees db) -> Employee.id e <> AttendanceCreate.employee_id a) \/
      (exists r, In r (attendance db) /\
         attendance_key r = (AttendanceCreate.employee_id a, AttendanceCreate.date a))) ->
     exists constraint,
       create_attendance_txn a seen db
       = (mkStore (employees db) (attendance db)
            (employees_id_seq db) (attendance_id_seq db + 1),
          Raised (IntegrityError constraint))) /\
  (forall (pk : Z) (employee_in : EmployeeUpdate.t) (seen db : Store)
          (loaded : Employee.t) (v : string),
     first (employee_by_pk pk) (employees seen) = Some loaded ->
     EmployeeUpdate.email employee_in = Some v ->
     v <> "" -> v <> Employee.email loaded ->
     (forall x, In x (employees seen) -> Employee.email x <> v) ->
     (exists x, In x (employees db) /\ Employee.id x = Employee.id loaded) ->
     (exists x, In x (employees db) /\ Employee.email x = v /\
                Employee.id x <> Employee.id loaded) ->
     exists constraint,
       update_employee_txn pk employee_in seen db
       = (db, Raised (IntegrityError constraint))) /\
  (forall (pk : Z) (db : Store),
     constraints_ok db -> constraints_ok (delete_employee_row pk db)) /\
  (forall (pk : Z) (attendance_in : AttendanceUpdate.t) (db : Store),
     constraints_ok db ->
     constraints_ok (update_attendance_row pk
                       (set_status (AttendanceUpdate.status attendance_in)) db)) /\
  (forall (pk : Z) (db : Store),
     constraints_ok db -> constraints_ok (delete_attendance_row pk db)).
Proof.
  split; [|split; [|split; [|split; [|split]]]].
  - intros now e seen db Hseen [x [Hin Hdup]].
    unfold create_employee_txn, insert_employee, employee_id_drawn.
    destruct (first (employee_by_employee_id _) _) as [y|] eqn:Eid.
    { apply first_some_in in Eid. destruct Eid as [Hy Heq].
      apply String.eqb_eq in Heq. now apply Hseen in Hy. }
    destruct (first (employee_by_email _) _) as [y|] eqn:Eem.
    { apply first_some_in in Eem. destruct Eem as [Hy Heq].
      apply String.eqb_eq in Heq. now apply Hseen in Hy. }
    destruct (existsb (employee_by_employee_id _) (employees db)) eqn:X1;
      [eexists; reflexivity|].
    destruct (existsb (employee_by_email _) (employees db)) eqn:X2;
      [eexists; reflexivity|].
    exfalso. destruct Hdup as [Hd | Hd].
    + assert (existsb (employee_by_employee_id (EmployeeCreate.employee_id e))
                (employees db) = true); [|congruence].
      apply existsb_exists. exists x. split; [exact Hin|].
      unfold employee_by_employee_id. rewrite Hd. apply String.eqb_refl.
    + assert (existsb (employee_by_email (EmployeeCreate.email e))
                (employees db) = true); [|congruence].
      apply existsb_exists. exists x. split; [exact Hin|].
      unfold employee_by_email. rewrite Hd. apply String.eqb_refl.
  - intros a seen db [e [He Hid]] Hfresh Hnow.
    unfold create_attendance_txn, insert_attendance, attendance_id_drawn.
    destruct (in_first_some (employee_by_pk (AttendanceCreate.employee_id a))
                (employees seen) e He) as [e' ->];
      [now apply employee_by_pk_spec|].
    destruct (first (fun r => _ && _) (attendance seen)) as [r|] eqn:Er.
    { apply first_some_in in Er. destruct Er as [Hr Hk].
      apply same_key_spec in Hk. now apply Hfresh in Hr. }
    destruct (existsb (employee_by_pk _) (employees db)) eqn:X1; simpl;
      [|eexists; reflexivity].
    destruct (existsb (fun r => _ && _) (attendance db)) eqn:X2;
      [eexists; reflexivity|].
    exfalso. destruct Hnow as [Hgone | [r [Hr Hk]]].
    + apply existsb_exists in X1. destruct X1 as [y [Hy Hpk]].
      apply employee_by_pk_spec in Hpk. now apply Hgone in Hy.
    + assert (existsb (fun r => attendance_by_employee (AttendanceCreate.employee_id a) r
                                && attendance_by_date (AttendanceCreate.date a) r)
                (attendance db) = true); [|congruence].
      apply existsb_exists. exists r. split; [exact Hr|]. now apply same_key_spec.
  - intros pk employee_in seen db loaded v Hfound Hv Hne Hcur Hfree
      [cur [Hcur_in Hcur_id]] [other [Hother [Hemail Hother_id]]].
    unfold update_employee_txn. rewrite Hfound.
    assert (Hpre : email_taken employee_in loaded seen = false).
    { unfold email_taken. rewrite Hv.
      destruct (truthy v && negb (String.eqb v (Employee.email loaded))); [|reflexivity].
      rewrite (all_false_first_none (employee_by_email v) (employees seen));
        [reflexivity|].
      intros x Hx. apply String.eqb_neq. now apply Hfree. }
    rewrite Hpre. unfold commit_employee_update.
    destruct (in_first_some (employee_by_pk (Employee.id loaded)) (employees db) cur Hcur_in)
      as [current ->]; [now apply employee_by_pk_spec|].
    assert (Hm : EmployeeUpdate.email (modified employee_in loaded) = Some v).
    { unfold modified. simpl. rewrite Hv.
      apply String.eqb_neq in Hcur. now rewrite Hcur. }
    rewrite Hm.
    assert (Hex : existsb (fun x => employee_by_email v x
                                    && negb (employee_by_pk (Employee.id loaded) x))
                    (employees db) = true).
    { apply existsb_exists. exists other. split; [exact Hother|].
      unfold employee_by_email, employee_by_pk. rewrite Hemail, String.eqb_refl. simpl.
      apply negb_true_iff, Z.eqb_neq. exact Hother_id. }
    rewrite Hex. eexists. reflexivity.
  - exact delete_employee_row_constraints.
  - intros pk attendance_in db. apply update_attendance_row_constraints.
  - exact delete_attendance_row_constraints.
Qed.

Lemma db_attended_constraints : constraints_ok db_attended.
Proof.
  unfold constraints_ok, unique_employee_id, unique_email, uq_employee_date.
  split; [|split; [|split; [|split; [|split]]]];
    try (vm_compute; repeat constructor; simpl; intuition discriminate).
  intros a Ha. vm_compute in Ha. destruct Ha as [<- | [<- | [<- | []]]].
  - exists (Employee.mk 1 "E1" "Ann" "ann@x.com" None 1000). vm_compute. tauto.
  - exists (Employee.mk 1 "E1" "Ann" "ann@x.com" None 1000). vm_compute. tauto.
  - exists (Employee.mk 2 "E2" "Bob" "bob@x.com" (Some "Sales") 2000). vm_compute. tauto.
Qed.

Lemma commit_rejection_propagates_witness :
  (exists constraint,
     create_employee_txn 3000 (EmployeeCreate.mk "E9" "Ann B" "ann@x.com" None)
       empty_store db_ann
     = (mkStore (employees db_ann) (attendance db_ann) 3 1,
        Raised (IntegrityError constraint))) /\
  (exists constraint,
     create_attendance_txn (AttendanceCreate.mk 1 jan_1 Absent) db_staff db_attended
     = (mkStore (employees db_attended) (attendance db_attended) 3 5,
        Raised (IntegrityError constraint))) /\
  (exists constraint,
     update_employee_txn 1 (EmployeeUpdate.mk None (Some "cyd@x.com") None) db_staff
       (fst (create_employee 3000 (EmployeeCreate.mk "E3" "Cyd" "cyd@x.com" None) db_staff))
     = (fst (create_employee 3000 (EmployeeCreate.mk "E3" "Cyd" "cyd@x.com" None) db_staff),
        Raised (IntegrityError constraint))) /\
  constraints_ok (delete_employee_row 1 db_attended) /\
  constraints_ok (update_attendance_row 2 (set_status Present) db_attended) /\
  constraints_ok (delete_attendance_row 2 db_attended).
Proof.
  destruct commit_rejection_propagates as [Hemp [Hatt [Hupd [Hdel [Hupa Hdela]]]]].
  split; [|split; [|split; [|split; [|split]]]].
  - apply (Hemp 3000 (EmployeeCreate.mk "E9" "Ann B" "ann@x.com" None) empty_store db_ann).
    + intros x [].
    + exists (Employee.mk 1 "E1" "Ann" "ann@x.com" None 1000).
      split; [vm_compute; now left | now right].
  - apply (Hatt (AttendanceCreate.mk 1 jan_1 Absent) db_staff db_attended).
    + exists (Employee.mk 1 "E1" "Ann" "ann@x.com" None 1000).
      split; [vm_compute; now left | reflexivity].
    + intros r [].
    + right. exists (Attendance.mk 1 1 jan_1 Present).
      split; [vm_compute; now left | reflexivity].
  - apply (Hupd 1 (EmployeeUpdate.mk None (Some "cyd@x.com") None) db_staff _
             (Employee.mk 1 "E1" "Ann" "ann@x.com" None 1000) "cyd@x.com").
    + reflexivity.
    + reflexivity.
    + discriminate.
    + discriminate.
    + intros x Hx. vm_compute in Hx.
      destruct Hx as [<- | [<- | []]]; vm_compute; discriminate.
    + exists (Employee.mk 1 "E1" "Ann" "ann@x.com" None 1000).
      split; [vm_compute; tauto | reflexivity].
    + exists (Employee.mk 3 "E3" "Cyd" "cyd@x.com" None 3000).
      split; [vm_compute; tauto | split; [reflexivity | vm_compute; discriminate]].
  - apply Hdel. exact db_attended_constraints.
  - apply (Hupa 2 (AttendanceUpdate.mk Present)). exact db_attended_constraints.
  - apply Hdela. exact db_attended_constraints.
Defined.

(** C9 as worded fails: a create whose pre-checks passed before another
    session committed the same email is rejected by the storage layer, and
    the response is the raised [IntegrityError], not an HTTP 400. *)
Lemma commit_rejection_counterexample :
  first (employee_by_employee_id "E9") (employees empty_store) = None /\
  first (employee_by_email "ann@x.com") (employees empty_store) = None /\
  insert_employee 3000 (EmployeeCreate.mk "E9" "Ann B" "ann@x.com" None) db_ann
  = inr (IntegrityError "employees.email") /\
  create_employee_txn 3000 (EmployeeCreate.mk "E9" "Ann B" "ann@x.com" None)
    empty_store db_ann
  = (mkStore (employees db_ann) (attendance db_ann) 3 1,
     Raised (IntegrityError "employees.email")) /\
  (forall detail,
     snd (create_employee_txn 3000 (EmployeeCreate.mk "E9" "Ann B" "ann@x.com" None)
            empty_store db_ann)
     <> HTTPException 400 detail).
Proof. repeat split; try reflexivity. intros detail. vm_compute. discriminate. Qed.

(* ------------------------------------------------------------------ *)
(** * Listings: filters and order *)
(* ------------------------------------------------------------------ *)

Lemma insert_desc_permutation {A : Type} (key : A -> Z) (x : A) (rows : list A) :
  Permutation (insert_desc key x rows) (x :: rows).
Proof.
  induction rows as [|y rows IH]; simpl; [apply Permutation_refl|].
  destruct (key y <=? key x); [apply Permutation_refl|].
  eapply Permutation_trans; [apply perm_skip, IH | apply perm_swap].
Qed.

Lemma order_by_desc_permutation {A : Type} (key : A -> Z) (rows : list A) :
  Permutation (order_by_desc key rows) rows.
Proof.
  induction rows as [|x rows IH]; simpl; [constructor|].
  eapply Permutation_trans; [apply insert_desc_permutation | now apply perm_skip].
Qed.

Lemma insert_desc_descending {A : Type} (key : A -> Z) (x : A) (rows : list A) :
  descending key rows -> descending key (insert_desc key x rows).
Proof.
  unfold descending. induction rows as [|y rows IH]; simpl; intros Hs.
  - repeat constructor.
  - inversion Hs as [|? ? Hrest Hall]; subst.
    destruct (Z.leb_spec (key y) (key x)) as [Hle | Hlt].
    + constructor; [exact Hs|]. constructor; [exact Hle|].
      revert Hall. apply Forall_impl. intros z Hz. lia.
    + constructor; [now apply IH|].
      apply (Permutation_Forall (Permutation_sym (insert_desc_permutation key x rows))).
      constructor; [lia | exact Hall].
Qed.

Lemma order_by_desc_descending {A : Type} (key : A -> Z) (rows : list A) :
  descending key (order_by_desc key rows).
Proof.
  induction rows as [|x rows IH]; simpl; [constructor|].
  now apply insert_desc_descending.
Qed.

Lemma filter_if_passes {A B : Type} (v : option B) (p : B -> A -> bool) (rows : list A) :
  filter_if v p rows = filter (passes v p) rows.
Proof.
  destruct v as [x|]; simpl; [reflexivity|].
  induction rows as [|y rows IH]; simpl; congruence.
Qed.

Lemma filter_three {A : Type} (p q r : A -> bool) (rows : list A) :
  filter r (filter q (filter p rows)) = filter (fun x => p x && q x && r x) rows.
Proof.
  induction rows as [|x rows IH]; simpl; [reflexivity|].
  destruct (p x); simpl; [destruct (q x); simpl; [destruct (r x)|]|]; congruence.
Qed.

Lemma AttendanceStatus_eqb_eq (a b : AttendanceStatus) :
  AttendanceStatus_eqb a b = true <-> a = b.
Proof. destruct a, b; simpl; split; congruence. Qed.

Lemma passes_spec {A B : Type} (v : option B) (p : B -> A -> bool) (row : A) :
  passes v p row = true <-> (forall x, v = Some x -> p x row = true).
Proof.
  destruct v as [x|]; simpl; split.
  - intros H y Hy. now inversion Hy; subst.
  - intros H. now apply H.
  - intros _ y Hy. discriminate.
  - reflexivity.
Qed.

(** C6, as the code has it. List Attendance reads its optional filters
    from the query string under the names [employee_id], [date_value] and
    [status]; for every state of the store and every combination of them it
    answers HTTP 200 with exactly the attendance records that match all the
    supplied filters, each as often as stored, in descending order of date,
    with no pagination. *)
Theorem get_attendance_filters (q : QueryParams) (db : Store)
    (employee_id : option Z) (date_value : option date)
    (status : option AttendanceStatus) :
  bind_int "employee_id" q = Some employee_id ->
  bind_date "date_value" q = Some date_value ->
  bind_status "status" q = Some status ->
  exists rows,
    get_attendance q db = Success 200 rows /\
    Permutation rows
      (filter (fun a => passes employee_id attendance_by_employee a
                        && passes date_value attendance_by_date a
                        && passes status attendance_by_status a)
         (attendance db)) /\
    (forall a, In a rows <->
       In a (attendance db) /\
       (forall v, employee_id = Some v -> Attendance.employee_id a = v) /\
       (forall d, date_value = Some d -> Attendance.date a = d) /\
       (forall st, status = Some st -> Attendance.status a = st)) /\
    descending Attendance.date rows.
Proof.
  intros Hemp Hdate Hstatus.
  unfold get_attendance, list_attendance. rewrite Hemp, Hdate, Hstatus.
  rewrite !filter_if_passes, filter_three.
  eexists. split; [reflexivity|].
  split; [apply order_by_desc_permutation|].
  split; [|apply order_by_desc_descending].
  intros a. split.
  - intros Hin.
    apply (Permutation_in a (order_by_desc_permutation _ _)) in Hin.
    apply filter_In in Hin. destruct Hin as [Hin Hp].
    rewrite !andb_true_iff, !passes_spec in Hp. destruct Hp as [[H1 H2] H3].
    split; [exact Hin|]. repeat split.
    + intros v Hv. apply Z.eqb_eq. exact (H1 v Hv).
    + intros d Hd. apply Z.eqb_eq. exact (H2 d Hd).
    + intros st Hst. apply AttendanceStatus_eqb_eq. exact (H3 st Hst).
  - intros [Hin [H1 [H2 H3]]].
    apply (Permutation_in a (Permutation_sym (order_by_desc_permutation _ _))).
    apply filter_In. split; [exact Hin|].
    rewrite !andb_true_iff, !passes_spec. repeat split.
    + intros v Hv. apply Z.eqb_eq. exact (H1 v Hv).
    + intros d Hd. apply Z.eqb_eq. exact (H2 d Hd).
    + intros st Hst. apply AttendanceStatus_eqb_eq. exact (H3 st Hst).
Qed.

Lemma get_attendance_filters_witness :
  get_attendance [("employee_id", QInt 1); ("date_value", QDate jan_2); ("status", QStr "Absent")]
    db_attended
  = Success 200 [Attendance.mk 2 1 jan_2 Absent].
Proof.
  destruct (get_attendance_filters
              [("employee_id", QInt 1); ("date_value", QDate jan_2); ("status", QStr "Absent")]
              db_attended (Some 1) (Some jan_2) (Some Absent))
    as [rows [Hrun _]]; try reflexivity.
Defined.

(** C6 as worded fails on the name of the date filter: a value sent as
    [date] is not read, and records of every date are returned. *)
Lemma get_attendance_filters_counterexample :
  get_attendance [("date", QDate jan_2)] db_attended
  = Success 200 [Attendance.mk 2 1 jan_2 Absent;
                 Attendance.mk 1 1 jan_1 Present;
                 Attendance.mk 3 2 jan_1 Absent] /\
  Attendance.date (Attendance.mk 1 1 jan_1 Present) <> jan_2 /\
  get_attendance [("date_value", QDate jan_2)] db_attended
  = Success 200 [Attendance.mk 2 1 jan_2 Absent].
Proof. repeat split. vm_compute. discriminate. Qed.

(* ------------------------------------------------------------------ *)
(** * List Employees *)
(* ------------------------------------------------------------------ *)

Example like_samples :
  like "%a_c%" "xxabcx" = true /\ like "%a_c%" "xxacx" = false /\
  ilike "Ann Lee" "%ANN%" = true /\ like "a%" "ba" = false /\
  like "" "" = true /\ like "%" "" = true /\ like "%b" "abab" = true /\
  like "%a\b%" "xa\bx" = false /\ like "%a\b%" "xabx" = true /\
  like "%50\%%" "at 50% off" = true /\ like "%50\%%" "at 500 off" = false.
Proof. repeat split; reflexivity. Qed.

Lemma like_percent (p s : string) :
  like (String "%" p) s
  = like p s || match s with
                | EmptyString => false
                | String _ rest => like (String "%" p) rest
                end.
Proof. destruct s; reflexivity. Qed.

Lemma like_percent_only (s : string) : like "%" s = true.
Proof.
  induction s as [|c s IH]; [reflexivity|].
  rewrite like_percent, IH. apply orb_true_r.
Qed.

Lemma like_literal (c : ascii) (p s : string) :
  Ascii.eqb c "%" = false -> Ascii.eqb c "_" = false -> Ascii.eqb c "\" = false ->
  like (String c p) s
  = match s with
    | EmptyString => false
    | String d rest => Ascii.eqb c d && like p rest
    end.
Proof. intros H1 H2 H3. cbn [like]. rewrite H1, H2, H3. reflexivity. Qed.

Lemma like_prefix (q s : string) :
  wildcard_free q = true -> like (q ++ "%") s = String.prefix q s.
Proof.
  revert s. induction q as [|c q IH]; intros s Hfree.
  - simpl. rewrite like_percent_only. now destruct s.
  - simpl in Hfree. rewrite !andb_true_iff, !negb_true_iff in Hfree.
    destruct Hfree as [[[H1 H2] H3] Hq].
    change (String c q ++ "%")%string with (String c (q ++ "%")).
    rewrite (like_literal c _ s H1 H2 H3).
    destruct s as [|d s]; [reflexivity|]. simpl.
    destruct (ascii_dec c d) as [-> | Hne].
    + rewrite Ascii.eqb_refl. simpl. now apply IH.
    + apply Ascii.eqb_neq in Hne. now rewrite Hne.
Qed.

Lemma like_contains (q s : string) :
  wildcard_free q = true -> like ("%" ++ q ++ "%") s = contains q s.
Proof.
  intros Hfree. change ("%" ++ q ++ "%")%string with (String "%" (q ++ "%")).
  induction s as [|c s IH]; rewrite like_percent, (like_prefix q _ Hfree).
  - reflexivity.
  - rewrite IH. reflexivity.
Qed.

Lemma lower_ascii_percent (c : ascii) :
  Ascii.eqb (lower_ascii c) "%" = Ascii.eqb c "%".
Proof. destruct c as [[] [] [] [] [] [] [] []]; reflexivity. Qed.

Lemma lower_ascii_underscore (c : ascii) :
  Ascii.eqb (lower_ascii c) "_" = Ascii.eqb c "_".
Proof. destruct c as [[] [] [] [] [] [] [] []]; reflexivity. Qed.

Lemma lower_ascii_backslash (c : ascii) :
  Ascii.eqb (lower_ascii c) "\" = Ascii.eqb c "\".
Proof. destruct c as [[] [] [] [] [] [] [] []]; reflexivity. Qed.

Lemma lower_wildcard_free (s : string) : wildcard_free (lower s) = wildcard_free s.
Proof.
  induction s as [|c s IH]; simpl; [reflexivity|].
  now rewrite lower_ascii_percent, lower_ascii_underscore, lower_ascii_backslash, IH.
Qed.

Lemma lower_append (a b : string) : lower (a ++ b) = (lower a ++ lower b)%string.
Proof. induction a as [|c a IH]; simpl; congruence. Qed.

(** A filter text without wildcards is looked for as a substring, case
    folded. *)
Lemma ilike_contains (full_name : string) (e : Employee.t) :
  wildcard_free full_name = true ->
  employee_by_full_name_ilike full_name e = full_name_contains full_name e.
Proof.
  intros Hfree. unfold employee_by_full_name_ilike, full_name_contains, ilike.
  rewrite !lower_append.
  change (lower "%") with "%"%string.
  apply like_contains. now rewrite lower_wildcard_free.
Qed.

Lemma filter_same {A : Type} (p q : A -> bool) (rows : list A) :
  (forall x, p x = q x) -> filter p rows = filter q rows.
Proof.
  intros H. induction rows as [|x rows IH]; simpl; [reflexivity|].
  now rewrite H, IH.
Qed.

Lemma filter_five {A : Type} (p1 p2 p3 p4 p5 : A -> bool) (rows : list A) :
  filter p5 (filter p4 (filter p3 (filter p2 (filter p1 rows))))
  = filter (fun x => p1 x && p2 x && p3 x && p4 x && p5 x) rows.
Proof.
  induction rows as [|x rows IH]; simpl; [reflexivity|].
  destruct (p1 x); simpl; [|exact IH].
  destruct (p2 x); simpl; [|exact IH].
  destruct (p3 x); simpl; [|exact IH].
  destruct (p4 x); simpl; [|exact IH].
  destruct (p5 x); simpl; congruence.
Qed.

Lemma in_firstn_in {A : Type} (n : nat) (rows : list A) (x : A) :
  In x (firstn n rows) -> In x rows.
Proof.
  revert rows. induction n as [|n IH]; intros [|y rows]; simpl; try tauto.
  intros [-> | Hx]; [now left | right; now apply IH].
Qed.

Lemma in_skipn_in {A : Type} (n : nat) (rows : list A) (x : A) :
  In x (skipn n rows) -> In x rows.
Proof.
  revert rows. induction n as [|n IH]; intros [|y rows]; simpl; try tauto.
  intros Hx. right. now apply IH.
Qed.

Lemma descending_skipn {A : Type} (key : A -> Z) (n : nat) (rows : list A) :
  descending key rows -> descending key (skipn n rows).
Proof.
  unfold descending. revert rows. induction n as [|n IH]; intros [|y rows] Hs; simpl;
    try assumption.
  inversion Hs; subst. now apply IH.
Qed.

Lemma descending_firstn {A : Type} (key : A -> Z) (n : nat) (rows : list A) :
  descending key rows -> descending key (firstn n rows).
Proof.
  unfold descending. revert rows. induction n as [|n IH]; intros [|y rows] Hs; simpl;
    try constructor.
  - inversion Hs; subst. now apply IH.
  - inversion Hs as [|? ? _ Hall]; subst. rewrite Forall_forall in *.
    intros x Hx. apply Hall. now apply in_firstn_in in Hx.
Qed.

Lemma offset_limit_in_range {A : Type} (skip limit : Z) (rows : list A) :
  0 <= skip <= bigint_max -> 0 <= limit <= bigint_max ->
  offset_limit skip limit rows
  = Success 200 (firstn (Z.to_nat limit) (skipn (Z.to_nat skip) rows)).
Proof.
  intros Hskip Hlimit. unfold offset_limit.
  destruct (Z.ltb_spec skip 0) as [|_]; [lia|].
  destruct (Z.ltb_spec limit 0) as [|_]; [lia|].
  destruct (Z.ltb_spec bigint_max skip) as [|_]; [lia|].
  destruct (Z.ltb_spec bigint_max limit) as [|_]; [lia|].
  reflexivity.
Qed.

Lemma response_model_all {A : Type} (validate : A -> bool) (code : Z) (rows : list A) :
  (forall x, In x rows -> validate x = true) ->
  response_model (forallb validate) (Success code rows) = Success code rows.
Proof.
  intros Hall. simpl.
  replace (forallb validate rows) with true; [reflexivity|].
  symmetry. apply forallb_forall. exact Hall.
Qed.

(** The rows of a page are rows of the table that pass the filters. *)
Lemma page_in_query {A : Type} (key : A -> Z) (skip limit : nat) (p : A -> bool)
    (rows : list A) (x : A) :
  In x (firstn limit (skipn skip (order_by_desc key (filter p rows)))) ->
  In x rows /\ p x = true.
Proof.
  intros Hx. apply in_firstn_in, in_skipn_in in Hx.
  apply (Permutation_in x (order_by_desc_permutation _ _)) in Hx.
  now apply filter_In in Hx.
Qed.

(** X19. [GET /api/employees] for a name filter without [%], [_] and
    backslash, a [skip] and a [limit] within the engine's range, and a
    table whose rows pass [EmployeeRead]: the supplied filters in
    conjunction ([id], [employee_id], [email], [department] by equality,
    [full_name] by case-insensitive substring), descending [created_at],
    then the page. *)
Lemma list_employees_page (EmailStr : string -> bool) (skip limit : Z) (id : option Z)
    (employee_id full_name email department : option string) (db : Store) :
  0 <= skip <= bigint_max -> 0 <= limit <= bigint_max ->
  (forall v, full_name = Some v -> wildcard_free v = true) ->
  employees_readable EmailStr db ->
  exists sorted,
    Permutation sorted
      (filter (fun e => passes id employee_by_pk e
                        && passes employee_id employee_by_employee_id e
                        && passes full_name full_name_contains e
                        && passes email employee_by_email e
                        && passes department employee_by_department e)
         (employees db)) /\
    descending Employee.created_at sorted /\
    get_employees EmailStr (Some skip) (Some limit) id employee_id full_name email
      department db
    = Success 200 (firstn (Z.to_nat limit) (skipn (Z.to_nat skip) sorted)).
Proof.
  intros Hskip Hlimit Hfree Hread.
  unfold get_employees, list_employees.
  rewrite (offset_limit_in_range _ _ _ Hskip Hlimit).
  rewrite !filter_if_passes, filter_five.
  rewrite response_model_all.
  2:{ intros x Hx. apply page_in_query in Hx. now apply Hread. }
  eexists. split; [|split; [apply order_by_desc_descending | reflexivity]].
  eapply Permutation_trans; [apply order_by_desc_permutation|].
  erewrite filter_same; [apply Permutation_refl|].
  intros e. simpl. f_equal. f_equal. f_equal.
  destruct full_name as [v|]; simpl; [|reflexivity].
  apply ilike_contains. now apply Hfree.
Qed.

Lemma db_staff_readable : employees_readable (fun _ => true) db_staff.
Proof.
  intros e He. vm_compute in He. destruct He as [<- | [<- | []]]; reflexivity.
Qed.

Lemma list_employees_page_witness :
  exists sorted,
    descending Employee.created_at sorted /\
    get_employees (fun _ => true) (Some 1) (Some 1) None None (Some "b") None None db_staff
    = Success 200 (firstn 1 (skipn 1 sorted)).
Proof.
  destruct (list_employees_page (fun _ => true) 1 1 None None (Some "b") None None db_staff)
    as [sorted [_ [Hsorted Hrun]]].
  - unfold bigint_max. lia.
  - unfold bigint_max. lia.
  - intros v Hv. inversion Hv. reflexivity.
  - exact db_staff_readable.
  - exists sorted. split; [exact Hsorted | exact Hrun].
Defined.

(** The defaults of the signature. *)
Lemma get_employees_defaults (EmailStr : string -> bool) (id : option Z)
    (employee_id full_name email department : option string) (db : Store) :
  get_employees EmailStr None None id employee_id full_name email department db
  = get_employees EmailStr (Some 0) (Some 100) id employee_id full_name email department db.
Proof. reflexivity. Qed.

(** C8 fails on the name filter. The text is spliced into the [ILIKE]
    pattern as it comes, so its [%] and [_] act as wildcards: the filter
    "_" returns both employees although neither name contains an
    underscore. *)
Theorem list_employees_wildcard :
  list_employees 0 100 None None (Some "_") None None db_staff
  = Success 200 [Employee.mk 2 "E2" "Bob" "bob@x.com" (Some "Sales") 2000;
                 Employee.mk 1 "E1" "Ann" "ann@x.com" None 1000] /\
  full_name_contains "_" (Employee.mk 2 "E2" "Bob" "bob@x.com" (Some "Sales") 2000) = false /\
  full_name_contains "_" (Employee.mk 1 "E1" "Ann" "ann@x.com" None 1000) = false.
Proof. repeat split. Qed.

(* ------------------------------------------------------------------ *)
(** * Create: what a successful request writes *)

(** Create Employee is refused as soon as one of its two lookups finds a
    row. *)
Lemma create_employee_refused (now : datetime) (e : EmployeeCreate.t) (db : Store) :
  first (employee_by_employee_id (EmployeeCreate.employee_id e)) (employees db) <> None \/
  first (employee_by_email (EmployeeCreate.email e)) (employees db) <> None ->
  exists detail, create_employee now e db = (db, HTTPException 400 detail).
Proof.
  intros Hfound. unfold create_employee, create_employee_txn, HTTP_400_BAD_REQUEST.
  destruct (first (employee_by_employee_id _) _); [eexists; reflexivity|].
  destruct (first (employee_by_email _) _); [eexists; reflexivity|].
  destruct Hfound as [H | H]; now elim H.
Qed.

(** X1. A Create Employee request whose [employee_id] and [email] no stored
    employee holds is answered with HTTP 201 and the new row: the fields of
    the payload, the next value of the id sequence, the server time.  The
    row is appended, the sequence advances, the attendance table is
    untouched, and a lookup by the external [employee_id] finds the row. *)
Theorem create_employee_created (now : datetime) (e : EmployeeCreate.t) (db : Store) :
  (forall x, In x (employees db) ->
     Employee.employee_id x <> EmployeeCreate.employee_id e /\
     Employee.email x <> EmployeeCreate.email e) ->
  exists row db',
    create_employee now e db = (db', Success 201 row) /\
    row = Employee.mk (employees_id_seq db) (EmployeeCreate.employee_id e)
            (EmployeeCreate.full_name e) (EmployeeCreate.email e)
            (EmployeeCreate.department e) now /\
    employees db' = (employees db ++ [row])%list /\
    attendance db' = attendance db /\
    employees_id_seq db' = employees_id_seq db + 1 /\
    attendance_id_seq db' = attendance_id_seq db /\
    first (employee_by_employee_id (EmployeeCreate.employee_id e)) (employees db') = Some row.
Proof.
  intros Hfresh.
  assert (Hid : first (employee_by_employee_id (EmployeeCreate.employee_id e))
                  (employees db) = None).
  { apply all_false_first_none. intros x Hx. apply String.eqb_neq. now apply Hfresh. }
  assert (Hem : first (employee_by_email (EmployeeCreate.email e)) (employees db) = None).
  { apply all_false_first_none. intros x Hx. apply String.eqb_neq. now apply Hfresh. }
  unfold create_employee, create_employee_txn, insert_employee.
  rewrite Hid, Hem, (first_none_existsb _ _ Hid), (first_none_existsb _ _ Hem).
  eexists. eexists. split; [reflexivity|]. split; [reflexivity|].
  simpl. repeat split.
  apply first_app_new; [exact Hid|]. apply String.eqb_refl.
Qed.

Lemma create_employee_created_witness :
  exists row db',
    create_employee 3000 (EmployeeCreate.mk "E3" "Cyd" "cyd@x.com" None) db_staff
    = (db', Success 201 row) /\
    row = Employee.mk 3 "E3" "Cyd" "cyd@x.com" None 3000.
Proof.
  destruct (create_employee_created 3000 (EmployeeCreate.mk "E3" "Cyd" "cyd@x.com" None)
              db_staff) as [row [db' [Hrun [Hrow _]]]].
  - intros x Hx. vm_compute in Hx.
    destruct Hx as [<- | [<- | []]]; split; vm_compute; discriminate.
  - exists row, db'. split; [exact Hrun | exact Hrow].
Defined.

(** X2. Whatever the first Create Employee request did, the same payload sent
    again is answered with HTTP 400 and writes nothing. *)
Theorem create_employee_twice (now now' : datetime) (e : EmployeeCreate.t) (db : Store) :
  exists detail,
    create_employee now' e (fst (create_employee now e db))
    = (fst (create_employee now e db), HTTPException 400 detail).
Proof.
  apply create_employee_refused.
  unfold create_employee, create_employee_txn, insert_employee.
  destruct (first (employee_by_employee_id _) (employees db)) as [y|] eqn:Eid.
  { left. simpl. rewrite Eid. discriminate. }
  destruct (first (employee_by_email _) (employees db)) as [y|] eqn:Eem.
  { right. simpl. rewrite Eem. discriminate. }
  rewrite (first_none_existsb _ _ Eid), (first_none_existsb _ _ Eem).
  left. simpl. rewrite (first_app_new _ _ _ Eid); [discriminate|].
  apply String.eqb_refl.
Qed.

Lemma filter_both_keys (pk : Z) (d : date) (rows : list Attendance.t) :
  filter (attendance_by_date d) (filter (attendance_by_employee pk) rows)
  = filter (fun r => attendance_by_employee pk r && attendance_by_date d r) rows.
Proof.
  induction rows as [|x rows IH]; simpl; [reflexivity|].
  destruct (attendance_by_employee pk x); simpl; [destruct (attendance_by_date d x)|];
    congruence.
Qed.

(** X3. A Create Attendance request for a stored employee and a date on which
    that employee has no record is answered with HTTP 201 and the new row:
    the fields of the payload and the next value of the id sequence.  The
    row is appended, the employees are untouched, and List Attendance
    filtered by that employee and date returns exactly the new row. *)
Theorem create_attendance_created (a : AttendanceCreate.t) (db : Store) :
  (exists e, In e (employees db) /\ Employee.id e = AttendanceCreate.employee_id a) ->
  (forall r, In r (attendance db) ->
     attendance_key r <> (AttendanceCreate.employee_id a, AttendanceCreate.date a)) ->
  exists row db',
    create_attendance a db = (db', Success 201 row) /\
    row = Attendance.mk (attendance_id_seq db) (AttendanceCreate.employee_id a)
            (AttendanceCreate.date a) (AttendanceCreate.status a) /\
    attendance db' = (attendance db ++ [row])%list /\
    employees db' = employees db /\
    employees_id_seq db' = employees_id_seq db /\
    attendance_id_seq db' = attendance_id_seq db + 1 /\
    list_attendance (Some (AttendanceCreate.employee_id a))
      (Some (AttendanceCreate.date a)) None db'
    = Success 200 [row].
Proof.
  intros [e [He Hid]] Hfresh.
  assert (Hnone : forall r, In r (attendance db) ->
            attendance_by_employee (AttendanceCreate.employee_id a) r
            && attendance_by_date (AttendanceCreate.date a) r = false).
  { intros r Hr. apply not_true_is_false. intros Ht.
    apply same_key_spec in Ht. now apply Hfresh in Hr. }
  unfold create_attendance, create_attendance_txn, insert_attendance.
  destruct (in_first_some (employee_by_pk (AttendanceCreate.employee_id a))
              (employees db) e He) as [e' Hfound]; [now apply employee_by_pk_spec|].
  rewrite Hfound, (all_false_first_none _ _ Hnone).
  assert (Hex : existsb (employee_by_pk (AttendanceCreate.employee_id a)) (employees db) = true)
    by (apply existsb_exists; exists e; split; [exact He | now apply employee_by_pk_spec]).
  rewrite Hex, (first_none_existsb _ _ (all_false_first_none _ _ Hnone)). simpl.
  eexists. eexists. split; [reflexivity|]. split; [reflexivity|].
  simpl. repeat split.
  unfold list_attendance. simpl. rewrite filter_both_keys.
  rewrite filter_app, (all_false_filter_nil _ _ Hnone). simpl.
  unfold attendance_by_employee, attendance_by_date. simpl.
  rewrite !Z.eqb_refl. reflexivity.
Qed.

Lemma create_attendance_created_witness :
  exists row db',
    create_attendance (AttendanceCreate.mk 2 jan_2 Present) db_attended
    = (db', Success 201 row) /\
    row = Attendance.mk 4 2 jan_2 Present.
Proof.
  destruct (create_attendance_created (AttendanceCreate.mk 2 jan_2 Present) db_attended)
    as [row [db' [Hrun [Hrow _]]]].
  - exists (Employee.mk 2 "E2" "Bob" "bob@x.com" (Some "Sales") 2000).
    split; [vm_compute; tauto | reflexivity].
  - intros r Hr. vm_compute in Hr.
    destruct Hr as [<- | [<- | [<- | []]]]; vm_compute; discriminate.
  - exists row, db'. split; [exact Hrun | exact Hrow].
Defined.

(** X4. For a stored employee, the same Create Attendance payload sent a second
    time is answered with HTTP 400 and writes nothing, whether the first
    request inserted the record or found it already there. *)
Theorem create_attendance_twice (a : AttendanceCreate.t) (db : Store) :
  (exists e, In e (employees db) /\ Employee.id e = AttendanceCreate.employee_id a) ->
  create_attendance a (fst (create_attendance a db))
  = (fst (create_attendance a db),
     HTTPException 400 "Attendance already recorded for this employee and date").
Proof.
  intros [e [He Hid]].
  destruct (in_first_some (employee_by_pk (AttendanceCreate.employee_id a))
              (employees db) e He) as [e' Hfound]; [now apply employee_by_pk_spec|].
  assert (Hex : existsb (employee_by_pk (AttendanceCreate.employee_id a)) (employees db) = true)
    by (apply existsb_exists; exists e; split; [exact He | now apply employee_by_pk_spec]).
  unfold create_attendance at 2 3. unfold create_attendance_txn, insert_attendance.
  rewrite Hfound, Hex.
  destruct (first (fun r => _ && _) (attendance db)) as [r|] eqn:Er.
  - simpl. unfold create_attendance, create_attendance_txn. now rewrite Hfound, Er.
  - rewrite (first_none_existsb _ _ Er). simpl.
    unfold create_attendance, create_attendance_txn. simpl. rewrite Hfound.
    rewrite (first_app_new _ _ _ Er); [reflexivity|].
    unfold attendance_by_employee, attendance_by_date. simpl. now rewrite !Z.eqb_refl.
Qed.

Lemma create_attendance_twice_witness :
  create_attendance ann_jan_1 (fst (create_attendance ann_jan_1 db_staff))
  = (fst (create_attendance ann_jan_1 db_staff),
     HTTPException 400 "Attendance already recorded for this employee and date").
Proof.
  apply create_attendance_twice.
  exists (Employee.mk 1 "E1" "Ann" "ann@x.com" None 1000).
  split; [vm_compute; tauto | reflexivity].
Defined.

(* ------------------------------------------------------------------ *)
(** * Refused requests *)
(* ------------------------------------------------------------------ *)

(** X5. A writing request that ends in an [HTTPException] (400 or 404) leaves
    the store exactly as it was. *)
Theorem refused_request_writes_nothing (r : Request) (db : Store) :
  refused r db = true -> step r db = db.
Proof.
  destruct r as [now e | pk e | pk | a | pk a | pk]; simpl.
  - unfold create_employee, create_employee_txn.
    destruct (first (employee_by_employee_id _) _); [reflexivity|].
    destruct (first (employee_by_email _) _); [reflexivity|].
    destruct (insert_employee now e db) as [[db' row]|exc]; simpl; discriminate.
  - unfold update_employee.
    destruct (first (employee_by_pk pk) _) as [employee|]; [|reflexivity].
    destruct (email_taken e employee db); simpl; [reflexivity | discriminate].
  - unfold delete_employee.
    destruct (first (employee_by_pk pk) _); simpl; [discriminate | reflexivity].
  - unfold create_attendance, create_attendance_txn.
    destruct (first (employee_by_pk _) _); [|reflexivity].
    destruct (first (fun r => _ && _) (attendance db)); [reflexivity|].
    destruct (insert_attendance a db) as [[db' row]|exc]; simpl; discriminate.
  - unfold update_attendance.
    destruct (first (attendance_by_pk pk) _); simpl; [discriminate | reflexivity].
  - unfold delete_attendance.
    destruct (first (attendance_by_pk pk) _); simpl; [discriminate | reflexivity].
Qed.

Lemma refused_request_writes_nothing_witness :
  step (DeleteEmployee 7) db_attended = db_attended.
Proof. apply refused_request_writes_nothing. reflexivity. Defined.

(* ------------------------------------------------------------------ *)
(** * The constraints of the schema as invariants *)
(* ------------------------------------------------------------------ *)

Lemma NoDup_map_snoc {A B : Type} (f : A -> B) (rows : list A) (x : A) :
  NoDup (map f rows) -> ~ In (f x) (map f rows) -> NoDup (map f (rows ++ [x])).
Proof.
  intros Hnd Hnew. rewrite map_app. simpl.
  apply Permutation_NoDup with (l := f x :: map f rows).
  - apply Permutation_cons_append.
  - now constructor.
Qed.

Lemma create_employee_cases (now : datetime) (e : EmployeeCreate.t) (db : Store) :
  fst (create_employee now e db) = db \/
  (fst (create_employee now e db)
   = mkStore (employees db ++ [Employee.mk (employees_id_seq db)
                                 (EmployeeCreate.employee_id e) (EmployeeCreate.full_name e)
                                 (EmployeeCreate.email e) (EmployeeCreate.department e) now])
       (attendance db) (employees_id_seq db + 1) (attendance_id_seq db) /\
   (forall x, In x (employees db) ->
      Employee.employee_id x <> EmployeeCreate.employee_id e /\
      Employee.email x <> EmployeeCreate.email e)).
Proof.
  unfold create_employee, create_employee_txn, insert_employee.
  destruct (first (employee_by_employee_id _) _) eqn:Eid; [now left|].
  destruct (first (employee_by_email _) _) eqn:Eem; [now left|].
  rewrite (first_none_existsb _ _ Eid), (first_none_existsb _ _ Eem).
  right. split; [reflexivity|]. intros x Hx. split.
  - apply String.eqb_neq. exact (first_none_all _ _ Eid x Hx).
  - apply String.eqb_neq. exact (first_none_all _ _ Eem x Hx).
Qed.

Lemma create_attendance_cases (a : AttendanceCreate.t) (db : Store) :
  fst (create_attendance a db) = db \/
  fst (create_attendance a db)
  = mkStore (employees db)
      (attendance db ++ [Attendance.mk (attendance_id_seq db)
                           (AttendanceCreate.employee_id a) (AttendanceCreate.date a)
                           (AttendanceCreate.status a)])
      (employees_id_seq db) (attendance_id_seq db + 1).
Proof.
  unfold create_attendance, create_attendance_txn, insert_attendance.
  destruct (first (employee_by_pk _) _) as [e|] eqn:Ee; [|now left].
  destruct (first (fun r => _ && _) (attendance db)) eqn:Er; [now left|].
  apply first_some_in in Ee.
  assert (Hex : existsb (employee_by_pk (AttendanceCreate.employee_id a)) (employees db) = true)
    by (apply existsb_exists; now exists e).
  rewrite Hex, (first_none_existsb _ _ Er). now right.
Qed.

Lemma map_update_employee_row {B : Type} (proj : Employee.t -> B) (pk : Z)
    (employee_in : EmployeeUpdate.t) (rows : list Employee.t) :
  (forall x, proj (assign_fields employee_in x) = proj x) ->
  map proj (map (fun x => if employee_by_pk pk x then assign_fields employee_in x else x) rows)
  = map proj rows.
Proof.
  intros Hproj. rewrite map_map. apply map_ext. intros x.
  destruct (employee_by_pk pk x); [apply Hproj | reflexivity].
Qed.

Lemma below_not_in {A : Type} (f : A -> Z) (n : Z) (rows : list A) :
  Forall (fun x => f x < n) rows -> ~ In n (map f rows).
Proof.
  intros Hall Hin. apply in_map_iff in Hin. destruct Hin as [x [Hx Hin]].
  rewrite Forall_forall in Hall. specialize (Hall x Hin). lia.
Qed.

Lemma Forall_filter_keep {A : Type} (P : A -> Prop) (p : A -> bool) (rows : list A) :
  Forall P rows -> Forall P (filter p rows).
Proof.
  rewrite !Forall_forall. intros H x Hx. apply filter_In in Hx. now apply H.
Qed.

Lemma step_primary_keys (r : Request) (db : Store) :
  primary_keys_ok db -> primary_keys_ok (step r db).
Proof.
  unfold primary_keys_ok. intros [He [Hle [Ha Hla]]].
  destruct r as [now e | pk e | pk | a | pk a | pk]; simpl.
  - destruct (create_employee_cases now e db) as [-> | [-> _]]; [tauto|]. simpl.
    split; [apply NoDup_map_snoc; [exact He | now apply below_not_in]|].
    split; [|tauto].
    apply Forall_app. split.
    + revert Hle. apply Forall_impl. intros x Hx. lia.
    + constructor; [simpl; lia | constructor].
  - unfold update_employee.
    destruct (first (employee_by_pk pk) (employees db)) as [employee|]; [|tauto].
    destruct (email_taken e employee db); [tauto|]. simpl.
    rewrite (map_update_employee_row Employee.id); [|reflexivity].
    split; [exact He|]. split; [|tauto].
    apply Forall_map. revert Hle. apply Forall_impl. intros x Hx.
    destruct (employee_by_pk _ x); exact Hx.
  - unfold delete_employee.
    destruct (first (employee_by_pk pk) (employees db)) as [employee|]; [|tauto]. simpl.
    repeat split; try (now apply NoDup_map_filter); now apply Forall_filter_keep.
  - destruct (create_attendance_cases a db) as [-> | ->]; [tauto|]. simpl.
    split; [exact He|]. split; [exact Hle|].
    split; [apply NoDup_map_snoc; [exact Ha | now apply below_not_in]|].
    apply Forall_app. split.
    + revert Hla. apply Forall_impl. intros x Hx. lia.
    + constructor; [simpl; lia | constructor].
  - unfold update_attendance.
    destruct (first (attendance_by_pk pk) (attendance db)) as [att|]; [|tauto]. simpl.
    split; [exact He|]. split; [exact Hle|]. split.
    + rewrite map_map.
      replace (map (fun x => Attendance.id
                      (if attendance_by_pk (Attendance.id att) x
                       then set_status (AttendanceUpdate.status a) x else x))
                 (attendance db))
        with (map Attendance.id (attendance db)); [exact Ha|].
      apply map_ext. intros x. now destruct (attendance_by_pk _ x).
    + apply Forall_map. revert Hla. apply Forall_impl. intros x Hx.
      destruct (attendance_by_pk _ x); exact Hx.
  - unfold delete_attendance.
    destruct (first (attendance_by_pk pk) (attendance db)) as [att|]; [|tauto]. simpl.
    repeat split; try assumption;
      [now apply NoDup_map_filter | now apply Forall_filter_keep].
Qed.

Lemma reachable_primary_keys_ok (db : Store) : reachable db -> primary_keys_ok db.
Proof.
  induction 1 as [|r db _ IH].
  - unfold primary_keys_ok. simpl. repeat split; constructor.
  - now apply step_primary_keys.
Qed.

Lemma step_unique_employee_id (r : Request) (db : Store) :
  unique_employee_id db -> unique_employee_id (step r db).
Proof.
  unfold unique_employee_id. intros Huq.
  destruct r as [now e | pk e | pk | a | pk a | pk]; simpl.
  - destruct (create_employee_cases now e db) as [-> | [-> Hfresh]]; [exact Huq|]. simpl.
    apply NoDup_map_snoc; [exact Huq|]. simpl. intros Hin.
    apply in_map_iff in Hin. destruct Hin as [x [Hx Hin]].
    now apply Hfresh in Hin.
  - unfold update_employee.
    destruct (first (employee_by_pk pk) (employees db)) as [employee|]; [|exact Huq].
    destruct (email_taken e employee db); [exact Huq|]. simpl.
    now rewrite (map_update_employee_row Employee.employee_id).
  - unfold delete_employee.
    destruct (first (employee_by_pk pk) (employees db)); [|exact Huq]. simpl.
    now apply NoDup_map_filter.
  - destruct (create_attendance_cases a db) as [-> | ->]; exact Huq.
  - unfold update_attendance.
    destruct (first (attendance_by_pk pk) (attendance db)); exact Huq.
  - unfold delete_attendance.
    destruct (first (attendance_by_pk pk) (attendance db)); exact Huq.
Qed.

(** X7. In every state of the store no two employees share an [employee_id]:
    Create Employee refuses a taken one and no handler changes it. *)
Theorem reachable_unique_employee_id (db : Store) :
  reachable db -> unique_employee_id db.
Proof.
  induction 1 as [|r db _ IH].
  - constructor.
  - now apply step_unique_employee_id.
Qed.

Lemma reachable_unique_employee_id_witness : unique_employee_id db_attended.
Proof. apply reachable_unique_employee_id. exact db_attended_reachable. Defined.

(** X8. Create Employee keeps the emails of the stored employees distinct. *)
Lemma create_employee_unique_email_step (now : datetime) (e : EmployeeCreate.t) (db : Store) :
  unique_email db -> unique_email (fst (create_employee now e db)).
Proof.
  unfold unique_email. intros Huq.
  destruct (create_employee_cases now e db) as [-> | [-> Hfresh]]; [exact Huq|]. simpl.
  apply NoDup_map_snoc; [exact Huq|]. simpl. intros Hin.
  apply in_map_iff in Hin. destruct Hin as [x [Hx Hin]]. now apply Hfresh in Hin.
Qed.

Lemma NoDup_email_assign (k : Z) (employee_in : EmployeeUpdate.t) (v : string)
    (rows : list Employee.t) :
  EmployeeUpdate.email employee_in = Some v ->
  NoDup (map Employee.id rows) ->
  NoDup (map Employee.email rows) ->
  ~ In v (map Employee.email rows) ->
  NoDup (map Employee.email
           (map (fun x => if employee_by_pk k x then assign_fields employee_in x else x) rows)).
Proof.
  intros Hv. induction rows as [|x rows IH]; simpl; intros Hid Hem Hnew; [constructor|].
  inversion Hid as [|? ? Hxid Hid']; subst. inversion Hem as [|? ? Hxem Hem']; subst.
  assert (Hnew' : ~ In v (map Employee.email rows)) by tauto.
  unfold employee_by_pk at 1. destruct (Z.eqb_spec (Employee.id x) k) as [Hk | Hk].
  - assert (Hrest : map (fun y => if employee_by_pk k y then assign_fields employee_in y else y)
                      rows = rows).
    { rewrite <- (map_id rows) at 2. apply map_ext_in. intros y Hy.
      unfold employee_by_pk. destruct (Z.eqb_spec (Employee.id y) k) as [Hyk | _];
        [|reflexivity].
      exfalso. apply Hxid. apply in_map_iff. exists y. split; [congruence | exact Hy]. }
    rewrite Hrest. unfold assign_fields. simpl. rewrite Hv.
    constructor; assumption.
  - constructor; [|now apply IH].
    intros Hin. apply in_map_iff in Hin. destruct Hin as [y' [Hy' Hin]].
    apply in_map_iff in Hin. destruct Hin as [y [Hy Hin]]. subst y'.
    destruct (employee_by_pk k y).
    + unfold assign_fields in Hy'. simpl in Hy'. rewrite Hv in Hy'.
      apply Hnew. left. congruence.
    + apply Hxem. apply in_map_iff. now exists y.
Qed.

(** X9. Update Employee keeps the emails of the stored employees distinct,
    given distinct ids and a supplied email that is not the empty string
    (an empty one is falsy and skips the handler's check; [EmailStr]
    rejects it before the handler runs). *)
Theorem update_employee_keeps_unique_email (pk : Z) (employee_in : EmployeeUpdate.t)
    (db : Store) :
  NoDup (map Employee.id (employees db)) ->
  unique_email db ->
  (forall v, EmployeeUpdate.email employee_in = Some v -> v <> "") ->
  unique_email (fst (update_employee pk employee_in db)).
Proof.
  unfold unique_email. intros Hid Huq Hne. unfold update_employee.
  destruct (first (employee_by_pk pk) (employees db)) as [employee|] eqn:Efound; [|exact Huq].
  destruct (email_taken employee_in employee db) eqn:Etaken; [exact Huq|]. simpl.
  apply first_some_in in Efound. destruct Efound as [Hin _].
  unfold email_taken in Etaken.
  destruct (EmployeeUpdate.email employee_in) as [v|] eqn:Ev.
  - assert (Htruthy : truthy v = true).
    { unfold truthy. apply negb_true_iff, String.eqb_neq. now apply Hne. }
    rewrite Htruthy in Etaken. simpl in Etaken.
    destruct (String.eqb_spec v (Employee.email employee)) as [Hsame | Hdiff].
    + rewrite map_map.
      replace (map (fun x => Employee.email
                      (if employee_by_pk (Employee.id employee) x
                       then assign_fields employee_in x else x)) (employees db))
        with (map Employee.email (employees db)); [exact Huq|].
      apply map_ext_in. intros x Hx.
      unfold employee_by_pk. destruct (Z.eqb_spec (Employee.id x) (Employee.id employee))
        as [Hk | _]; [|reflexivity].
      assert (x = employee)
        by (apply (NoDup_map_injective Employee.id (employees db)); assumption).
      subst x.
      unfold assign_fields. simpl. rewrite Ev. symmetry. exact Hsame.
    + simpl in Etaken.
      destruct (first (employee_by_email v) (employees db)) as [y|] eqn:Ey; [discriminate|].
      apply (NoDup_email_assign _ _ v); try assumption.
      intros Hv. apply in_map_iff in Hv. destruct Hv as [y [Hy Hyin]].
      pose proof (first_none_all _ _ Ey y Hyin) as Hf.
      unfold employee_by_email in Hf. rewrite Hy, String.eqb_refl in Hf. discriminate.
  - now rewrite (map_update_employee_row Employee.email);
      [| intros x; unfold assign_fields; simpl; rewrite Ev].
Qed.

Lemma update_employee_keeps_unique_email_witness :
  unique_email (fst (update_employee 1 (EmployeeUpdate.mk None (Some "ann@corp.com") None)
                       db_staff)).
Proof.
  apply update_employee_keeps_unique_email.
  - vm_compute. repeat constructor; simpl; intuition discriminate.
  - vm_compute. repeat constructor; simpl; intuition discriminate.
  - intros v Hv. inversion Hv. discriminate.
Defined.

Lemma first_map_same {A : Type} (p : A -> bool) (g : A -> A) (rows : list A) :
  (forall x, p (g x) = p x) ->
  first p (map g rows) = option_map g (first p rows).
Proof.
  intros Hp. unfold first. induction rows as [|x rows IH]; simpl; [reflexivity|].
  rewrite Hp. destruct (p x); [reflexivity | exact IH].
Qed.

Lemma assign_fields_twice (employee_in : EmployeeUpdate.t) (x : Employee.t) :
  assign_fields employee_in (assign_fields employee_in x) = assign_fields employee_in x.
Proof.
  unfold assign_fields. simpl.
  destruct (EmployeeUpdate.full_name employee_in), (EmployeeUpdate.email employee_in),
    (EmployeeUpdate.department employee_in); reflexivity.
Qed.

(** X10. Update Employee is idempotent: the same request sent again gives the
    same response and leaves the store as the first one left it, whether
    the first one was a 200, a 400 or a 404. *)
Theorem update_employee_idempotent (pk : Z) (employee_in : EmployeeUpdate.t) (db : Store) :
  update_employee pk employee_in (fst (update_employee pk employee_in db))
  = update_employee pk employee_in db.
Proof.
  unfold update_employee at 2 3.
  destruct (first (employee_by_pk pk) (employees db)) as [employee|] eqn:Efound.
  - destruct (email_taken employee_in employee db) eqn:Etaken.
    + simpl. unfold update_employee. now rewrite Efound, Etaken.
    + simpl. unfold update_employee. simpl.
      pose proof (first_some_in _ _ _ Efound) as [_ Hpk].
      apply employee_by_pk_spec in Hpk.
      rewrite first_map_same, Efound.
      2:{ intros x. unfold employee_by_pk.
          destruct (Employee.id x =? Employee.id employee); reflexivity. }
      simpl.
      assert (Hself : employee_by_pk (Employee.id employee) employee = true)
        by (unfold employee_by_pk; apply Z.eqb_refl).
      rewrite !Hself.
      assert (Hfree : email_taken employee_in (assign_fields employee_in employee)
                        (update_employee_row (Employee.id employee)
                           (assign_fields employee_in) db) = false).
      { unfold email_taken. destruct (EmployeeUpdate.email employee_in) as [v|] eqn:Ev;
          [|reflexivity].
        unfold assign_fields at 1. simpl. rewrite Ev, String.eqb_refl.
        now rewrite andb_false_r. }
      rewrite Hfree, assign_fields_twice. f_equal.
      unfold update_employee_row. simpl. f_equal.
      rewrite map_map. apply map_ext. intros x.
      unfold employee_by_pk. destruct (Z.eqb_spec (Employee.id x) (Employee.id employee)).
      * simpl. destruct (Z.eqb_spec (Employee.id x) (Employee.id employee));
          [apply assign_fields_twice | contradiction].
      * destruct (Z.eqb_spec (Employee.id x) (Employee.id employee));
          [contradiction | reflexivity].
  - simpl. unfold update_employee. now rewrite Efound.
Qed.

Lemma update_employee_nothing_supplied (pk : Z) (employee : Employee.t) (db : Store) :
  first (employee_by_pk pk) (employees db) = Some employee ->
  update_employee pk (EmployeeUpdate.mk None None None) db = (db, Success 200 employee).
Proof.
  intros Hfound. unfold update_employee. rewrite Hfound. simpl.
  assert (Hsame : forall x, assign_fields (EmployeeUpdate.mk None None None) x = x)
    by (intros [i eid fn em dp ca]; reflexivity).
  rewrite Hsame. f_equal. unfold update_employee_row.
  destruct db as [emps atts eseq aseq]. simpl. f_equal.
  rewrite <- (map_id emps) at 2. apply map_ext. intros x.
  destruct (employee_by_pk _ x); [apply Hsame | reflexivity].
Qed.

(** X11. [PUT /api/employees/{id}] with no field supplied, on the id of a
    stored employee, changes nothing in the store and answers HTTP 200
    with the stored employee when that row passes [EmployeeRead] (an
    internal error when it does not). *)
Theorem update_employee_empty_payload (EmailStr : string -> bool) (pk : Z)
    (employee : Employee.t) (db : Store) :
  first (employee_by_pk pk) (employees db) = Some employee ->
  put_employees EmailStr pk (EmployeeUpdate.mk None None None) db
  = (db, if EmployeeRead_validate EmailStr employee
         then Success 200 employee else ResponseValidationError).
Proof.
  intros Hfound. unfold put_employees.
  change (EmployeeUpdate_validate EmailStr (EmployeeUpdate.mk None None None)) with true.
  cbv iota. now rewrite (update_employee_nothing_supplied pk employee db Hfound).
Qed.

Lemma update_employee_empty_payload_witness :
  put_employees (fun _ => true) 2 (EmployeeUpdate.mk None None None) db_attended
  = (db_attended, Success 200 (Employee.mk 2 "E2" "Bob" "bob@x.com" (Some "Sales") 2000)).
Proof.
  apply (update_employee_empty_payload (fun _ => true) 2
           (Employee.mk 2 "E2" "Bob" "bob@x.com" (Some "Sales") 2000) db_attended).
  reflexivity.
Defined.

(** X12. No Update Employee request, whatever its payload and outcome, changes
    the [id], the [employee_id] or the [created_at] of a stored employee,
    adds or removes an employee, or touches the attendance table and the
    sequences. *)
Theorem update_employee_immutable_fields (pk : Z) (employee_in : EmployeeUpdate.t)
    (db : Store) :
  map (fun x => (Employee.id x, Employee.employee_id x, Employee.created_at x))
    (employees (fst (update_employee pk employee_in db)))
  = map (fun x => (Employee.id x, Employee.employee_id x, Employee.created_at x))
      (employees db) /\
  attendance (fst (update_employee pk employee_in db)) = attendance db /\
  employees_id_seq (fst (update_employee pk employee_in db)) = employees_id_seq db /\
  attendance_id_seq (fst (update_employee pk employee_in db)) = attendance_id_seq db.
Proof.
  unfold update_employee.
  destruct (first (employee_by_pk pk) (employees db)) as [employee|]; [|now repeat split].
  destruct (email_taken employee_in employee db); [now repeat split|]. simpl.
  repeat split. now apply map_update_employee_row.
Qed.

(* ------------------------------------------------------------------ *)
(** * Update and Delete Attendance *)
(* ------------------------------------------------------------------ *)

(** X14. Update Attendance on the id of a stored record answers HTTP 200 with
    the record under its new status; in the table the records of that id
    change in [status] alone, every other record, the employees and the
    sequences are as before. *)
Theorem update_attendance_status_only (pk : Z) (attendance_in : AttendanceUpdate.t)
    (att : Attendance.t) (db : Store) :
  first (attendance_by_pk pk) (attendance db) = Some att ->
  exists db',
    update_attendance pk attendance_in db
    = (db', Success 200
              (Attendance.mk (Attendance.id att) (Attendance.employee_id att)
                 (Attendance.date att) (AttendanceUpdate.status attendance_in))) /\
    Forall2 (fun x x' =>
               (Attendance.id x = pk ->
                  x' = Attendance.mk (Attendance.id x) (Attendance.employee_id x)
                         (Attendance.date x) (AttendanceUpdate.status attendance_in)) /\
               (Attendance.id x <> pk -> x' = x))
      (attendance db) (attendance db') /\
    employees db' = employees db /\
    employees_id_seq db' = employees_id_seq db /\
    attendance_id_seq db' = attendance_id_seq db.
Proof.
  intros Hfound. unfold update_attendance. rewrite Hfound.
  apply first_some_in in Hfound. destruct Hfound as [_ Hpk].
  unfold attendance_by_pk in Hpk. apply Z.eqb_eq in Hpk. subst pk.
  eexists. split; [reflexivity|]. simpl. split; [|repeat split].
  induction (attendance db) as [|x rows IH]; simpl; constructor; [|exact IH].
  unfold attendance_by_pk. destruct (Z.eqb_spec (Attendance.id x) (Attendance.id att)).
  - split; [reflexivity | contradiction].
  - split; [contradiction | reflexivity].
Qed.

Lemma update_attendance_status_only_witness :
  exists db',
    update_attendance 2 (AttendanceUpdate.mk Present) db_attended
    = (db', Success 200 (Attendance.mk 2 1 jan_2 Present)) /\
    employees db' = employees db_attended.
Proof.
  destruct (update_attendance_status_only 2 (AttendanceUpdate.mk Present)
              (Attendance.mk 2 1 jan_2 Absent) db_attended)
    as [db' [Hrun [_ [Hemp _]]]]; [reflexivity|].
  exists db'. split; [exact Hrun | exact Hemp].
Defined.

(** X15. Delete Attendance on the id of a stored record answers HTTP 204; the
    records of that id are gone and every other record is kept; the
    employees are untouched; afterwards Update Attendance and Delete
    Attendance on that id answer HTTP 404. *)
Theorem delete_attendance_removes (att : Attendance.t) (db : Store) :
  In att (attendance db) ->
  exists db',
    delete_attendance (Attendance.id att) db = (db', Success 204 tt) /\
    (forall x, In x (attendance db') <->
               In x (attendance db) /\ Attendance.id x <> Attendance.id att) /\
    employees db' = employees db /\
    (forall attendance_in,
       update_attendance (Attendance.id att) attendance_in db'
       = (db', HTTPException 404 "Attendance record not found")) /\
    delete_attendance (Attendance.id att) db'
    = (db', HTTPException 404 "Attendance record not found").
Proof.
  intros Hin. unfold delete_attendance at 1.
  destruct (in_first_some (attendance_by_pk (Attendance.id att)) (attendance db) att Hin)
    as [y Hy]; [unfold attendance_by_pk; apply Z.eqb_refl|].
  rewrite Hy. apply first_some_in in Hy. destruct Hy as [_ Hy].
  unfold attendance_by_pk in Hy. apply Z.eqb_eq in Hy. rewrite Hy.
  eexists. split; [reflexivity|].
  assert (Hgone : first (attendance_by_pk (Attendance.id att))
                    (attendance (delete_attendance_row (Attendance.id att) db)) = None)
    by (simpl; apply first_filter_none).
  split; [|split; [reflexivity | split]].
  - intros x. simpl. rewrite filter_In, negb_true_iff.
    unfold attendance_by_pk. rewrite Z.eqb_neq. tauto.
  - intros attendance_in. unfold update_attendance. now rewrite Hgone.
  - unfold delete_attendance. now rewrite Hgone.
Qed.

Lemma delete_attendance_removes_witness :
  exists db',
    delete_attendance 2 db_attended = (db', Success 204 tt) /\
    delete_attendance 2 db' = (db', HTTPException 404 "Attendance record not found").
Proof.
  destruct (delete_attendance_removes (Attendance.mk 2 1 jan_2 Absent) db_attended)
    as [db' [Hrun [_ [_ [_ Hagain]]]]]; [vm_compute; tauto|].
  exists db'. split; [exact Hrun | exact Hagain].
Defined.

(** X16. In every state of the store, once a record is deleted a record for the
    same employee and date can be created again: the request is answered
    with HTTP 201. *)
Theorem delete_attendance_then_create (r : Attendance.t) (st : AttendanceStatus)
    (db : Store) :
  reachable db ->
  In r (attendance db) ->
  exists row db',
    create_attendance
      (AttendanceCreate.mk (Attendance.employee_id r) (Attendance.date r) st)
      (fst (delete_attendance (Attendance.id r) db))
    = (db', Success 201 row) /\
    Attendance.employee_id row = Attendance.employee_id r /\
    Attendance.date row = Attendance.date r /\
    Attendance.status row = st.
Proof.
  intros Hreach Hin.
  pose proof (reachable_foreign_key db Hreach r Hin) as [e [He Hid]].
  pose proof (reachable_uq_employee_date db Hreach) as Huq.
  unfold delete_attendance.
  destruct (in_first_some (attendance_by_pk (Attendance.id r)) (attendance db) r Hin)
    as [y Hy]; [unfold attendance_by_pk; apply Z.eqb_refl|].
  rewrite Hy. apply first_some_in in Hy. destruct Hy as [_ Hy].
  unfold attendance_by_pk in Hy. apply Z.eqb_eq in Hy. rewrite Hy. simpl fst.
  assert (Hnone : forall x,
            In x (attendance (delete_attendance_row (Attendance.id r) db)) ->
            attendance_by_employee (Attendance.employee_id r) x
            && attendance_by_date (Attendance.date r) x = false).
  { intros x Hx. simpl in Hx. apply filter_In in Hx. destruct Hx as [Hx Hne].
    apply not_true_is_false. intros Ht.
    apply (same_key_spec
             (AttendanceCreate.mk (Attendance.employee_id r) (Attendance.date r) st)) in Ht.
    simpl in Ht.
    assert (x = r)
      by (apply (NoDup_map_injective attendance_key (attendance db)); assumption).
    subst x. unfold attendance_by_pk in Hne. rewrite Z.eqb_refl in Hne. discriminate. }
  unfold create_attendance, create_attendance_txn, insert_attendance. simpl.
  destruct (in_first_some (employee_by_pk (Attendance.employee_id r)) (employees db) e He)
    as [e' Hfound]; [now apply employee_by_pk_spec|].
  rewrite Hfound.
  assert (Hex : existsb (employee_by_pk (Attendance.employee_id r)) (employees db) = true)
    by (apply existsb_exists; exists e; split; [exact He | now apply employee_by_pk_spec]).
  simpl in Hnone.
  rewrite (all_false_first_none _ _ Hnone), Hex,
    (first_none_existsb _ _ (all_false_first_none _ _ Hnone)). simpl.
  eexists. eexists. split; [reflexivity|]. repeat split.
Qed.

Lemma delete_attendance_then_create_witness :
  exists row db',
    create_attendance (AttendanceCreate.mk 1 jan_1 Absent)
      (fst (delete_attendance 1 db_attended))
    = (db', Success 201 row) /\
    Attendance.status row = Absent.
Proof.
  destruct (delete_attendance_then_create (Attendance.mk 1 1 jan_1 Present) Absent
              db_attended db_attended_reachable)
    as [row [db' [Hrun [_ [_ Hst]]]]]; [vm_compute; tauto|].
  exists row, db'. split; [exact Hrun | exact Hst].
Defined.

(** X17. List Attendance For Employee answers HTTP 404 exactly when no stored
    employee has the id; otherwise it answers HTTP 200 with exactly the
    records that reference the id, each as often as stored, in descending
    order of date: the answer of List Attendance filtered by that
    employee alone. *)
Theorem list_attendance_for_employee_rows (pk : Z) (db : Store) :
  (list_attendance_for_employee pk db = HTTPException 404 "Employee not found" <->
   forall e, In e (employees db) -> Employee.id e <> pk) /\
  ((exists e, In e (employees db) /\ Employee.id e = pk) ->
   exists rows,
     list_attendance_for_employee pk db = Success 200 rows /\
     list_attendance (Some pk) None None db = Success 200 rows /\
     Permutation rows (filter (attendance_by_employee pk) (attendance db)) /\
     (forall a, In a rows <-> In a (attendance db) /\ Attendance.employee_id a = pk) /\
     descending Attendance.date rows).
Proof.
  unfold list_attendance_for_employee. split.
  - destruct (first (employee_by_pk pk) (employees db)) as [e|] eqn:E; split.
    + discriminate.
    + intros Hnone. apply first_some_in in E. destruct E as [Hin Hp].
      apply employee_by_pk_spec in Hp. now apply Hnone in Hin.
    + intros _ e He Hid.
      pose proof (first_none_all _ _ E e He) as Hf.
      apply employee_by_pk_spec in Hid. congruence.
    + reflexivity.
  - intros [e [He Hid]].
    destruct (in_first_some (employee_by_pk pk) (employees db) e He) as [e' ->];
      [now apply employee_by_pk_spec|].
    eexists. split; [reflexivity|]. split; [reflexivity|].
    split; [apply order_by_desc_permutation|].
    split; [|apply order_by_desc_descending].
    intros a. rewrite <- attendance_by_employee_spec, <- filter_In. split.
    + apply Permutation_in, order_by_desc_permutation.
    + apply Permutation_in, Permutation_sym, order_by_desc_permutation.
Qed.

Lemma list_attendance_for_employee_rows_witness :
  exists rows,
    list_attendance_for_employee 1 db_attended = Success 200 rows /\
    rows = [Attendance.mk 2 1 jan_2 Absent; Attendance.mk 1 1 jan_1 Present].
Proof.
  destruct (list_attendance_for_employee_rows 1 db_attended) as [_ Hrows].
  destruct Hrows as [rows [Hrun _]].
  - exists (Employee.mk 1 "E1" "Ann" "ann@x.com" None 1000).
    split; [vm_compute; tauto | reflexivity].
  - exists rows. split; [exact Hrun|]. vm_compute in Hrun.
    injection Hrun as <-. reflexivity.
Defined.

(* ------------------------------------------------------------------ *)
(** * Create, then delete *)
(* ------------------------------------------------------------------ *)

(** X18. In every state of the store, deleting the employee that a Create
    Employee request has just inserted answers HTTP 204 and gives back the
    two tables as they were before the create; of the create only the
    advanced id sequence remains. *)
Theorem create_then_delete_employee (now : datetime) (e : EmployeeCreate.t)
    (db db1 : Store) (row : Employee.t) :
  reachable db ->
  create_employee now e db = (db1, Success 201 row) ->
  delete_employee (Employee.id row) db1
  = (mkStore (employees db) (attendance db) (employees_id_seq db + 1) (attendance_id_seq db),
     Success 204 tt).
Proof.
  intros Hreach.
  destruct (reachable_primary_keys_ok db Hreach) as [_ [Hle _]].
  pose proof (reachable_foreign_key db Hreach) as Hfk.
  rewrite Forall_forall in Hle.
  unfold create_employee, create_employee_txn, insert_employee.
  destruct (first (employee_by_employee_id _) _); [discriminate|].
  destruct (first (employee_by_email _) _); [discriminate|].
  destruct (existsb (employee_by_employee_id _) _); [discriminate|].
  destruct (existsb (employee_by_email _) _); [discriminate|].
  intros Hrun. injection Hrun as <- <-. simpl.
  assert (Hother : forall x, In x (employees db) ->
            employee_by_pk (employees_id_seq db) x = false).
  { intros x Hx. unfold employee_by_pk. apply Z.eqb_neq. specialize (Hle x Hx). lia. }
  unfold delete_employee. simpl.
  rewrite (first_app_new _ _ _ (all_false_first_none _ _ Hother));
    [|unfold employee_by_pk; apply Z.eqb_refl].
  simpl. unfold delete_employee_row. simpl. f_equal. f_equal.
  - rewrite filter_app. simpl. unfold employee_by_pk at 2. simpl.
    rewrite Z.eqb_refl. simpl. rewrite app_nil_r.
    apply filter_keep_all. intros x Hx. now rewrite (Hother x Hx).
  - apply filter_keep_all. intros a Ha. apply negb_true_iff.
    unfold attendance_by_employee. apply Z.eqb_neq.
    destruct (Hfk a Ha) as [x [Hx Hid]]. specialize (Hle x Hx). lia.
Qed.

Lemma create_then_delete_employee_witness :
  delete_employee 3
    (fst (create_employee 3000 (EmployeeCreate.mk "E3" "Cyd" "cyd@x.com" None) db_attended))
  = (mkStore (employees db_attended) (attendance db_attended) 4 4, Success 204 tt).
Proof.
  apply (create_then_delete_employee 3000 (EmployeeCreate.mk "E3" "Cyd" "cyd@x.com" None)
           db_attended _ (Employee.mk 3 "E3" "Cyd" "cyd@x.com" None 3000)
           db_attended_reachable).
  reflexivity.
Defined.

(* ------------------------------------------------------------------ *)
(** * List Employees: the page *)
(* ------------------------------------------------------------------ *)

(** X20. [GET /api/employees] for a [skip] and a [limit] within the engine's
    range and a table whose rows pass [EmployeeRead] answers HTTP 200 with
    at most [limit] rows, in descending order of [created_at]; every row
    returned is a stored employee that meets each supplied [id],
    [employee_id], [email] and [department] filter by equality (an
    employee without department meets no department filter). *)
Theorem list_employees_within_limit (EmailStr : string -> bool) (skip limit : Z)
    (id : option Z) (employee_id full_name email department : option string)
    (db : Store) :
  0 <= skip <= bigint_max -> 0 <= limit <= bigint_max ->
  employees_readable EmailStr db ->
  exists rows,
    get_employees EmailStr (Some skip) (Some limit) id employee_id full_name email
      department db
    = Success 200 rows /\
    Z.of_nat (List.length rows) <= limit /\
    descending Employee.created_at rows /\
    (forall e, In e rows ->
       In e (employees db) /\
       (forall v, id = Some v -> Employee.id e = v) /\
       (forall v, employee_id = Some v -> Employee.employee_id e = v) /\
       (forall v, email = Some v -> Employee.email e = v) /\
       (forall v, department = Some v -> Employee.department e = Some v)).
Proof.
  intros Hskip Hlimit Hread. unfold get_employees, list_employees.
  rewrite (offset_limit_in_range _ _ _ Hskip Hlimit).
  rewrite !filter_if_passes, filter_five.
  rewrite response_model_all.
  2:{ intros x Hx. apply page_in_query in Hx. now apply Hread. }
  eexists. split; [reflexivity|]. split; [|split].
  - match goal with
    | |- Z.of_nat (List.length (firstn ?n ?l)) <= _ =>
        pose proof (firstn_le_length n l)
    end.
    lia.
  - apply descending_firstn, descending_skipn, order_by_desc_descending.
  - intros e He. apply page_in_query in He. destruct He as [Hin Hp].
    rewrite !andb_true_iff, !passes_spec in Hp.
    destruct Hp as [[[[H1 H2] _] H4] H5].
    split; [exact Hin|]. repeat split.
    + intros v Hv. apply employee_by_pk_spec. exact (H1 v Hv).
    + intros v Hv. apply String.eqb_eq. exact (H2 v Hv).
    + intros v Hv. apply String.eqb_eq. exact (H4 v Hv).
    + intros v Hv. specialize (H5 v Hv). unfold employee_by_department in H5.
      destruct (Employee.department e) as [d|]; [|discriminate].
      apply String.eqb_eq in H5. now subst.
Qed.

Lemma list_employees_within_limit_witness :
  exists rows,
    get_employees (fun _ => true) (Some 0) (Some 1) None None None None (Some "Sales")
      db_staff
    = Success 200 rows /\
    Z.of_nat (List.length rows) <= 1.
Proof.
  destruct (list_employees_within_limit (fun _ => true) 0 1 None None None None
              (Some "Sales") db_staff)
    as [rows [Hrun [Hlen _]]];
    [unfold bigint_max; lia | unfold bigint_max; lia | exact db_staff_readable |].
  exists rows. split; [exact Hrun | exact Hlen].
Defined.

Lemma like_two_percent (s : string) : like "%%" s = true.
Proof. rewrite like_percent, like_percent_only. reflexivity. Qed.

(** X21. An empty [full_name] filter selects every employee: the request gives
    what the same request without the filter gives. *)
Theorem list_employees_empty_full_name (skip limit : Z) (id : option Z)
    (employee_id email department : option string) (db : Store) :
  list_employees skip limit id employee_id (Some "") email department db
  = list_employees skip limit id employee_id None email department db.
Proof.
  unfold list_employees. cbv zeta. f_equal. f_equal. f_equal. f_equal.
  simpl. apply filter_keep_all. intros e _.
  unfold employee_by_full_name_ilike, ilike. simpl. apply like_two_percent.
Qed.

(* ------------------------------------------------------------------ *)
(** * Witnesses of the bounds of full_name *)
(* ------------------------------------------------------------------ *)

Lemma db_ann_full_name_ok : full_name_ok db_ann.
Proof. constructor; [simpl; lia | constructor]. Qed.

Lemma post_employees_full_name_ok_witness :
  full_name_ok (fst (post_employees (fun _ => true) 2000 bob db_ann)).
Proof. apply post_employees_full_name_ok. exact db_ann_full_name_ok. Defined.

Lemma put_employees_full_name_max_witness :
  Forall (fun e => (String.length (Employee.full_name e) <= 255)%nat)
    (employees (fst (put_employees (fun _ => true) 1
                       (EmployeeUpdate.mk (Some "Ann Lee") None None) db_ann))).
Proof.
  apply put_employees_full_name_max.
  constructor; [simpl; lia | constructor].
Defined.

(* ------------------------------------------------------------------ *)
(** * Further witnesses *)
(* ------------------------------------------------------------------ *)

Lemma create_employee_unique_email_step_witness :
  unique_email (fst (create_employee 2000 bob db_ann)).
Proof.
  apply create_employee_unique_email_step.
  vm_compute. repeat constructor; simpl; intuition discriminate.
Defined.

Lemma update_employee_email_in_use_witness :
  update_employee 1 (EmployeeUpdate.mk (Some "Ann Lee") (Some "bob@x.com") None) db_staff
  = (db_staff, HTTPException 400 "Email is already in use").
Proof.
  apply (update_employee_email_in_use 1 _
           (Employee.mk 1 "E1" "Ann" "ann@x.com" None 1000)
           (Employee.mk 2 "E2" "Bob" "bob@x.com" (Some "Sales") 2000) "bob@x.com").
  - reflexivity.
  - reflexivity.
  - discriminate.
  - discriminate.
  - vm_compute. tauto.
  - reflexivity.
Defined.
